(** * telemetry.js: the Do-Not-Track gate of the WebVR template

    A shallow embedding of [src/lib/telemetry.js] and the properties of its
    privacy gate, its one-shot initialisation and its script loader.

    The module is browser code: everything it does is an effect on the page
    (properties of [window], children of [document.head], the console, the
    User Timing buffer).  The page is modelled as a record [World]; a
    JavaScript function is a computation [JS A] that threads the world and
    either completes normally or throws. *)

From stdpp Require Import gmap strings list pretty.
From Stdlib Require Import Ascii ZArith QArith Qround Lia Lqa.

#[local] Set Warnings "-register-all".
#[local] Open Scope string_scope.
#[local] Open Scope list_scope.

(** ** JavaScript values *)

(** The values the module touches.  Numbers are integer valued: the only
    numbers the module creates are [Math.round] results and time stamps of
    [new Date()].  An object is its map of own properties. *)
Inductive JSVal : Type :=
| VUndef
| VNull
| VBool (b : bool)
| VNum (z : Z)
| VStr (s : string)
| VObj (props : gmap string JSVal).

(** [ToBoolean]. *)
Definition truthy (v : JSVal) : bool :=
  match v with
  | VUndef | VNull => false
  | VBool b => b
  | VNum z => negb (z =? 0)%Z
  | VStr s => negb (String.eqb s "")
  | VObj _ => true
  end.

(** [v === s] for a string literal [s]: no coercion, only a string equals a
    string. *)
Definition strict_eq_str (v : JSVal) (s : string) : bool :=
  match v with
  | VStr t => String.eqb t s
  | _ => false
  end.

(** [v || {}]. *)
Definition or_empty (v : JSVal) : JSVal :=
  if truthy v then v else VObj ∅.

(** [v.k] for a value that is not [undefined] or [null] (every read in the
    module follows [v = v || {}]).  A primitive has none of the keys the
    module reads. *)
Definition get_prop (v : JSVal) (k : string) : JSVal :=
  match v with
  | VObj m => default VUndef (m !! k)
  | _ => VUndef
  end.

(** [ToString], as the host applies it to a [DOMString] argument.  It is
    the host's on strings, [undefined], [null], booleans, integers up to
    2^53 in magnitude (larger numbers are rounded or in exponent form) and
    plain objects without a [toString] of their own; see
    [prints_faithfully]. *)
Definition to_string (v : JSVal) : string :=
  match v with
  | VUndef => "undefined"
  | VNull => "null"
  | VBool true => "true"
  | VBool false => "false"
  | VNum z => pretty z
  | VStr s => s
  | VObj _ => "[object Object]"
  end.

(** ** Exceptions and completions *)

Inductive Exn : Type :=
| TypeError (msg : string)
| ReferenceError (msg : string)
| SyntaxError (msg : string).

Inductive Completion (A : Type) : Type :=
| Normal (a : A)
| Throw (e : Exn).
Arguments Normal {A} a.
Arguments Throw {A} e.

(** ** The page *)

(** The function stored in [window.gtag]: the one line 68 installs, or one
    the page had installed before the module ran (opaque). *)
Inductive GtagFn : Type :=
| GtagPush
| GtagHost.

(** What [telemetry._gtag] evaluates to (lines 38-42). *)
Inductive Fn : Type :=
| NO_OP
| WindowGtag (g : GtagFn).

(** An element of [window.dataLayer]: an [arguments] object pushed by
    [gtag], or anything else the page had put there. *)
Inductive DLItem : Type :=
| DLArguments (args : list JSVal)
| DLOther (v : JSVal).

(** One call made on the analytics channel: the function that received it
    and its arguments. *)
Record GtagCall : Type := {
  callee : Fn;
  call_args : list JSVal
}.

(** The closures handed to [injectScript] as [callback]. *)
Inductive Callback : Type :=
| AnalyticsLoaded   (* lines 71-76 *)
| RavenLoaded.      (* lines 82-92 *)

(** An [HTMLScriptElement].  [src] and [crossOrigin] are the IDL attributes
    of the interface; [crossOrigin] reflects the [crossorigin] content
    attribute, and [None] is its missing value, for which the script is
    fetched in no-cors mode.  JavaScript property names are case sensitive:
    every other name assigned on the element is an ordinary own property,
    kept in [expando], that the fetch never reads. *)
Record ScriptEl : Type := {
  src : string;
  crossOrigin : option string;
  expando : gmap string JSVal;
  listener : option Callback
}.

(** The request mode the HTML standard derives from the element. *)
Inductive RequestMode : Type :=
| NoCors
| CorsAnonymous
| CorsUseCredentials.

Definition ascii_lower (c : ascii) : ascii :=
  let n := nat_of_ascii c in
  if ((65 <=? n) && (n <=? 90))%nat then ascii_of_nat (n + 32) else c.

Fixpoint lower (s : string) : string :=
  match s with
  | EmptyString => EmptyString
  | String c s' => String (ascii_lower c) (lower s')
  end.

Definition request_mode (el : ScriptEl) : RequestMode :=
  match crossOrigin el with
  | None => NoCors
  | Some v => if String.eqb (lower v) "use-credentials" then CorsUseCredentials
              else CorsAnonymous
  end.

(** The global [Raven] of raven.js once its script has run. *)
Record RavenObj : Type := {
  raven_dsn : option string;
  raven_installed : bool
}.

Inductive EntryType : Type :=
| Mark
| Measure.

(** A [PerformanceEntry] of the User Timing buffer. *)
Record PerfEntry : Type := {
  entry_name : string;
  entryType : EntryType;
  startTime : Q;
  duration : Q
}.

(** The bound tracker of [configureBoundTracker]: [NO_OP], or the closure
    [trackingFunction] with its captured [groups]. *)
Inductive Tracker : Type :=
| TrackerNoOp
| TrackingFunction (groups : JSVal).

(** The two members of [telemetry.performance]: [NO_OP] (lines 44-47) or
    the closures of [setupPerformanceAPI] over [tracker]. *)
Inductive PerfFn : Type :=
| PerfNoOp
| PerfBound (tracker : Tracker).

Record PerfAPI : Type := {
  mark : PerfFn;
  measure : PerfFn
}.

Record World : Type := {
  (* what doNotTrack reads *)
  nav_doNotTrack : JSVal;
  nav_msDoNotTrack : JSVal;
  win_doNotTrack : JSVal;
  (* window globals *)
  win_dataLayer : option (list DLItem);
  win_gtag : option GtagFn;
  win_Raven : option RavenObj;
  (* document.head children appended by the module, console.warn calls *)
  head : list ScriptEl;
  console : list (list JSVal);
  (* clocks and the User Timing buffer, in recording order *)
  date_now : Z;
  perf_now : Q;
  timeline : list PerfEntry;
  (* module state *)
  tel_performance : PerfAPI;
  called : bool;
  (* calls issued on the analytics channel, oldest first *)
  gtag_calls : list GtagCall
}.

Definition set_dataLayer (d : option (list DLItem)) (w : World) : World :=
  {| nav_doNotTrack := nav_doNotTrack w; nav_msDoNotTrack := nav_msDoNotTrack w;
     win_doNotTrack := win_doNotTrack w; win_dataLayer := d;
     win_gtag := win_gtag w; win_Raven := win_Raven w; head := head w;
     console := console w; date_now := date_now w; perf_now := perf_now w;
     timeline := timeline w; tel_performance := tel_performance w;
     called := called w; gtag_calls := gtag_calls w |}.

Definition set_gtag (g : option GtagFn) (w : World) : World :=
  {| nav_doNotTrack := nav_doNotTrack w; nav_msDoNotTrack := nav_msDoNotTrack w;
     win_doNotTrack := win_doNotTrack w; win_dataLayer := win_dataLayer w;
     win_gtag := g; win_Raven := win_Raven w; head := head w;
     console := console w; date_now := date_now w; perf_now := perf_now w;
     timeline := timeline w; tel_performance := tel_performance w;
     called := called w; gtag_calls := gtag_calls w |}.

Definition set_Raven (r : option RavenObj) (w : World) : World :=
  {| nav_doNotTrack := nav_doNotTrack w; nav_msDoNotTrack := nav_msDoNotTrack w;
     win_doNotTrack := win_doNotTrack w; win_dataLayer := win_dataLayer w;
     win_gtag := win_gtag w; win_Raven := r; head := head w;
     console := console w; date_now := date_now w; perf_now := perf_now w;
     timeline := timeline w; tel_performance := tel_performance w;
     called := called w; gtag_calls := gtag_calls w |}.

Definition set_head (h : list ScriptEl) (w : World) : World :=
  {| nav_doNotTrack := nav_doNotTrack w; nav_msDoNotTrack := nav_msDoNotTrack w;
     win_doNotTrack := win_doNotTrack w; win_dataLayer := win_dataLayer w;
     win_gtag := win_gtag w; win_Raven := win_Raven w; head := h;
     console := console w; date_now := date_now w; perf_now := perf_now w;
     timeline := timeline w; tel_performance := tel_performance w;
     called := called w; gtag_calls := gtag_calls w |}.

Definition set_console (c : list (list JSVal)) (w : World) : World :=
  {| nav_doNotTrack := nav_doNotTrack w; nav_msDoNotTrack := nav_msDoNotTrack w;
     win_doNotTrack := win_doNotTrack w; win_dataLayer := win_dataLayer w;
     win_gtag := win_gtag w; win_Raven := win_Raven w; head := head w;
     console := c; date_now := date_now w; perf_now := perf_now w;
     timeline := timeline w; tel_performance := tel_performance w;
     called := called w; gtag_calls := gtag_calls w |}.

Definition set_timeline (t : list PerfEntry) (w : World) : World :=
  {| nav_doNotTrack := nav_doNotTrack w; nav_msDoNotTrack := nav_msDoNotTrack w;
     win_doNotTrack := win_doNotTrack w; win_dataLayer := win_dataLayer w;
     win_gtag := win_gtag w; win_Raven := win_Raven w; head := head w;
     console := console w; date_now := date_now w; perf_now := perf_now w;
     timeline := t; tel_performance := tel_performance w;
     called := called w; gtag_calls := gtag_calls w |}.

Definition set_tel_performance (p : PerfAPI) (w : World) : World :=
  {| nav_doNotTrack := nav_doNotTrack w; nav_msDoNotTrack := nav_msDoNotTrack w;
     win_doNotTrack := win_doNotTrack w; win_dataLayer := win_dataLayer w;
     win_gtag := win_gtag w; win_Raven := win_Raven w; head := head w;
     console := console w; date_now := date_now w; perf_now := perf_now w;
     timeline := timeline w; tel_performance := p;
     called := called w; gtag_calls := gtag_calls w |}.

Definition set_called (b : bool) (w : World) : World :=
  {| nav_doNotTrack := nav_doNotTrack w; nav_msDoNotTrack := nav_msDoNotTrack w;
     win_doNotTrack := win_doNotTrack w; win_dataLayer := win_dataLayer w;
     win_gtag := win_gtag w; win_Raven := win_Raven w; head := head w;
     console := console w; date_now := date_now w; perf_now := perf_now w;
     timeline := timeline w; tel_performance := tel_performance w;
     called := b; gtag_calls := gtag_calls w |}.

Definition set_gtag_calls (l : list GtagCall) (w : World) : World :=
  {| nav_doNotTrack := nav_doNotTrack w; nav_msDoNotTrack := nav_msDoNotTrack w;
     win_doNotTrack := win_doNotTrack w; win_dataLayer := win_dataLayer w;
     win_gtag := win_gtag w; win_Raven := win_Raven w; head := head w;
     console := console w; date_now := date_now w; perf_now := perf_now w;
     timeline := timeline w; tel_performance := tel_performance w;
     called := called w; gtag_calls := l |}.

(** The user changes the Do-Not-Track preference; time passes. *)
Definition set_flags (a b c : JSVal) (w : World) : World :=
  {| nav_doNotTrack := a; nav_msDoNotTrack := b;
     win_doNotTrack := c; win_dataLayer := win_dataLayer w;
     win_gtag := win_gtag w; win_Raven := win_Raven w; head := head w;
     console := console w; date_now := date_now w; perf_now := perf_now w;
     timeline := timeline w; tel_performance := tel_performance w;
     called := called w; gtag_calls := gtag_calls w |}.

Definition set_clocks (d : Z) (p : Q) (w : World) : World :=
  {| nav_doNotTrack := nav_doNotTrack w; nav_msDoNotTrack := nav_msDoNotTrack w;
     win_doNotTrack := win_doNotTrack w; win_dataLayer := win_dataLayer w;
     win_gtag := win_gtag w; win_Raven := win_Raven w; head := head w;
     console := console w; date_now := d; perf_now := p;
     timeline := timeline w; tel_performance := tel_performance w;
     called := called w; gtag_calls := gtag_calls w |}.

(** ** The monad of JavaScript computations *)

Definition JS (A : Type) : Type := World -> Completion A * World.

Definition ret {A} (a : A) : JS A := fun w => (Normal a, w).

Definition bind {A B} (m : JS A) (k : A -> JS B) : JS B :=
  fun w =>
    match m w with
    | (Normal a, w') => k a w'
    | (Throw e, w') => (Throw e, w')
    end.

Definition throw {A} (e : Exn) : JS A := fun w => (Throw e, w).

Definition modify (f : World -> World) : JS unit := fun w => (Normal tt, f w).

Definition gets {A} (f : World -> A) : JS A := fun w => (Normal (f w), w).

Declare Scope js_scope.
Delimit Scope js_scope with js.
Notation "x <- m ;; k" := (bind m (fun x => k))
  (at level 100, m at next level, right associativity) : js_scope.
Notation "m ;; k" := (bind m (fun _ => k))
  (at level 100, right associativity) : js_scope.
#[local] Open Scope js_scope.

(** The world a computation leaves behind, whether it returned or threw. *)
Definition exec {A} (m : JS A) (w : World) : World := snd (m w).

(** ** The privacy gate (lines 188-192) *)

(** [window.navigator] is an object, as in every browser, so that reading
    its two properties cannot fail; a property that is absent reads as
    [VUndef]. *)

Definition dnt (w : World) : bool :=
  strict_eq_str (nav_doNotTrack w) "1"
  || strict_eq_str (nav_msDoNotTrack w) "1"
  || strict_eq_str (win_doNotTrack w) "1".

Definition doNotTrack : JS bool := gets dnt.

(** ** Host functions the module calls *)

(** [console.warn(...args)]. *)
Definition console_warn (args : list JSVal) : JS unit :=
  modify (fun w => set_console (console w ++ [args]) w).

(** [new Date()]: an object whose time value is the wall clock. *)
Definition Date (t : Z) : JSVal := VObj {[ "[[DateValue]]" := VNum t ]}.

(** [document.createElement('script')]. *)
Definition createElement_script : ScriptEl :=
  {| src := ""; crossOrigin := None; expando := ∅; listener := None |}.

(** [el.name = v] on a script element: [src] and [crossOrigin] are IDL
    attributes ([crossOrigin] is a nullable string), any other name makes an
    own property. *)
Definition set_script_prop (name : string) (v : JSVal) (el : ScriptEl) : ScriptEl :=
  if String.eqb name "src" then
    {| src := to_string v; crossOrigin := crossOrigin el;
       expando := expando el; listener := listener el |}
  else if String.eqb name "crossOrigin" then
    {| src := src el;
       crossOrigin := match v with
                      | VUndef | VNull => None
                      | _ => Some (to_string v)
                      end;
       expando := expando el; listener := listener el |}
  else
    {| src := src el; crossOrigin := crossOrigin el;
       expando := <[name := v]> (expando el); listener := listener el |}.

(** [el.addEventListener('load', ...)] and [('error', ...)]: both listeners
    of [injectScript] close over the same [callback]. *)
Definition add_listeners (cb : option Callback) (el : ScriptEl) : ScriptEl :=
  {| src := src el; crossOrigin := crossOrigin el;
     expando := expando el; listener := cb |}.

(** [document.head.appendChild(el)]. *)
Definition appendChild (el : ScriptEl) : JS unit :=
  modify (fun w => set_head (head w ++ [el]) w).

(** [Math.round]: the nearest integer, a tie going up. *)
Definition Math_round (x : Q) : Z := Qfloor (x + (1 # 2)).

(** *** User Timing (Level 2) *)

(** Marks and measures with the page's own names.  [mark] refuses the
    names of the read-only attributes of the [PerformanceTiming] interface;
    as mark arguments of [measure], where the host reads them as navigation
    time stamps, these names are left out. *)

Definition PerformanceTiming_names : list string :=
  [ "navigationStart"; "unloadEventStart"; "unloadEventEnd"; "redirectStart";
    "redirectEnd"; "fetchStart"; "domainLookupStart"; "domainLookupEnd";
    "connectStart"; "connectEnd"; "secureConnectionStart"; "requestStart";
    "responseStart"; "responseEnd"; "domLoading"; "domInteractive";
    "domContentLoadedEventStart"; "domContentLoadedEventEnd"; "domComplete";
    "loadEventStart"; "loadEventEnd" ].

Definition reserved_name (name : string) : bool :=
  existsb (String.eqb name) PerformanceTiming_names.

Definition is_mark (e : PerfEntry) : bool :=
  match entryType e with Mark => true | Measure => false end.

(** [performance.mark(name)]: a [SyntaxError] for a reserved name, else one
    more mark at the current time. *)
Definition performance_mark (name : JSVal) : JS unit :=
  if reserved_name (to_string name) then
    throw (SyntaxError ("'" ++ to_string name ++
                        "' is part of the PerformanceTiming interface.")%string)
  else
    modify (fun w =>
      set_timeline (timeline w ++ [{| entry_name := to_string name; entryType := Mark;
                                      startTime := perf_now w; duration := 0 |}]) w).

(** The start time of the most recent mark called [name]. *)
Definition find_mark (name : string) (tl : list PerfEntry) : option Q :=
  startTime <$> last (List.filter (fun e => is_mark e && String.eqb (entry_name e) name) tl).

(** A mark argument of [measure]: its default when omitted, the mark's time
    when it exists, and a [SyntaxError] otherwise. *)
Definition resolve_mark (arg : JSVal) (dflt : Q) (tl : list PerfEntry) : Completion Q :=
  match arg with
  | VUndef => Normal dflt
  | _ => match find_mark (to_string arg) tl with
         | Some t => Normal t
         | None => Throw (SyntaxError ("The mark '" ++ to_string arg ++ "' does not exist.")%string)
         end
  end.

(** [performance.measure(name, startMark, endMark)]. *)
Definition performance_measure (name startMark endMark : JSVal) : JS unit :=
  fun w =>
    match resolve_mark endMark (perf_now w) (timeline w) with
    | Throw e => (Throw e, w)
    | Normal t_end =>
        match resolve_mark startMark 0 (timeline w) with
        | Throw e => (Throw e, w)
        | Normal t_start =>
            (Normal tt,
             set_timeline (timeline w ++ [{| entry_name := to_string name;
                                             entryType := Measure;
                                             startTime := t_start;
                                             duration := t_end - t_start |}]) w)
        end
    end.

(** Entries are returned in chronological order of [startTime]; entries
    with the same start time keep their recording order. *)
Fixpoint insert_by_start (e : PerfEntry) (l : list PerfEntry) : list PerfEntry :=
  match l with
  | [] => [e]
  | x :: l' => if Qle_bool (startTime x) (startTime e)
               then x :: insert_by_start e l'
               else e :: l
  end.

Definition sort_by_start (l : list PerfEntry) : list PerfEntry :=
  fold_left (fun acc e => insert_by_start e acc) l [].

(** [performance.getEntriesByName(name)]: every entry of that name,
    whatever its type. *)
Definition performance_getEntriesByName (name : JSVal) : JS (list PerfEntry) :=
  gets (fun w =>
    sort_by_start (List.filter (fun e => String.eqb (entry_name e) (to_string name)) (timeline w))).

(** The entry of that name recorded last. *)
Definition most_recent_entry (name : string) (w : World) : option PerfEntry :=
  last (List.filter (fun e => String.eqb (entry_name e) name) (timeline w)).

(** ** The module *)

Definition CURRENT_VERSION : string := "1.1.0".
Definition MOZILLA_RESEARCH_TRACKER : string := "UA-77033033-6".
Definition GTAG_URL : string :=
  ("https://www.googletagmanager.com/gtag/js?id=" ++ MOZILLA_RESEARCH_TRACKER)%string.
Definition RAVEN_URL : string := "https://cdn.ravenjs.com/3.22.3/console/raven.min.js".
Definition RAVEN_DSN : string :=
  "https://e359be9fb9324addb0dc97b664cf5ee6@sentry.io/294878".

(** The getter of [telemetry._gtag] (lines 38-42): [window.gtag || NO_OP]. *)
Definition channel (w : World) : Fn :=
  match win_gtag w with
  | Some g => WindowGtag g
  | None => NO_OP
  end.

Definition telemetry_gtag : JS Fn := gets channel.

(** Calling a function of the analytics channel.  The call is recorded;
    the function of line 68 then pushes its [arguments] on the global
    [dataLayer]. *)
Definition call_fn (f : Fn) (args : list JSVal) : JS unit :=
  modify (fun w => set_gtag_calls (gtag_calls w ++ [{| callee := f; call_args := args |}]) w) ;;
  match f with
  | NO_OP => ret tt
  | WindowGtag GtagHost => ret tt
  | WindowGtag GtagPush =>
      d <- gets win_dataLayer ;;
      match d with
      | Some l => modify (set_dataLayer (Some (l ++ [DLArguments args])))
      | None => throw (ReferenceError "dataLayer is not defined")
      end
  end.

(** [injectScript] (lines 167-183). *)
Definition injectScript (url : JSVal) (callback : option Callback) : JS ScriptEl :=
  let script := createElement_script in
  let script := set_script_prop "src" url script in
  let script := set_script_prop "crossorigin" (VStr "anonymous") script in
  let script := add_listeners callback script in
  appendChild script ;;
  ret script.

(** The callback of lines 71-76. *)
Definition analytics_callback (err : JSVal) : JS unit :=
  if truthy err then console_warn [VStr "Could not load Analytics.js script:"; err]
  else ret tt.

(** [startRaven] (lines 94-97): [Raven.config(dsn).install()]. *)
Definition startRaven : JS unit :=
  r <- gets win_Raven ;;
  match r with
  | None => throw (ReferenceError "Raven is not defined")
  | Some r =>
      let r := {| raven_dsn := Some RAVEN_DSN; raven_installed := raven_installed r |} in
      let r := {| raven_dsn := raven_dsn r; raven_installed := true |} in
      modify (set_Raven (Some r))
  end.

(** The callback of lines 82-92. *)
Definition raven_callback (err : JSVal) : JS unit :=
  if truthy err then console_warn [VStr "Could not load Raven.js script:"; err]
  else
    r <- gets win_Raven ;;
    match r with
    | None => console_warn [VStr "Could not find `window.Raven` global"]
    | Some _ => startRaven
    end.

Definition run_callback (cb : Callback) (err : JSVal) : JS unit :=
  match cb with
  | AnalyticsLoaded => analytics_callback err
  | RavenLoaded => raven_callback err
  end.

(** The listeners of lines 171-175 and 176-180, as the host runs them when
    the script has loaded or has failed with the event [ev]. *)
Definition on_load (el : ScriptEl) : JS unit :=
  match listener el with
  | Some cb => run_callback cb VNull
  | None => ret tt
  end.

Definition on_error (el : ScriptEl) (ev : gmap string JSVal) : JS unit :=
  match listener el with
  | Some cb => run_callback cb (VObj ev)
  | None => ret tt
  end.

(** [setupAnalytics] (lines 64-77). *)
Definition setupAnalytics : JS unit :=
  d <- doNotTrack ;;
  if d then ret tt else
  modify (fun w => set_dataLayer (Some (default [] (win_dataLayer w))) w) ;;
  modify (fun w => set_gtag (Some (default GtagPush (win_gtag w))) w) ;;
  g <- gets win_gtag ;;
  now <- gets date_now ;;
  match g with
  | Some g => call_fn (WindowGtag g) [VStr "js"; Date now]
  | None => throw (TypeError "window.gtag is not a function")
  end ;;
  injectScript (VStr GTAG_URL) (Some AnalyticsLoaded) ;;
  ret tt.

(** [setupErrorLogging] (lines 79-98). *)
Definition setupErrorLogging : JS unit :=
  d <- doNotTrack ;;
  if d then ret tt else
  injectScript (VStr RAVEN_URL) (Some RavenLoaded) ;;
  ret tt.

(** [options.k = v] in strict mode: a property of an object is written, a
    primitive refuses it. *)
Definition set_prop (o : JSVal) (k : string) (v : JSVal) : JS JSVal :=
  match o with
  | VObj m => ret (VObj (<[k := v]> m))
  | _ => throw (TypeError ("Cannot create property '" ++ k ++ "'")%string)
  end.

(** [trackingFunction] (lines 156-164), closed over [groups]. *)
Definition trackingFunction (groups : JSVal) (command label options : JSVal) : JS unit :=
  d <- doNotTrack ;;
  if d then ret tt else
  let options := or_empty options in
  options <- (if truthy groups then set_prop options "send_to" groups else ret options) ;;
  f <- telemetry_gtag ;;
  call_fn f [command; label; options].

Definition call_tracker (t : Tracker) (command label options : JSVal) : JS unit :=
  match t with
  | TrackerNoOp => ret tt
  | TrackingFunction groups => trackingFunction groups command label options
  end.

(** [configureBoundTracker] (lines 148-165). *)
Definition configureBoundTracker (trackingId options : JSVal) : JS Tracker :=
  d <- doNotTrack ;;
  if d then ret TrackerNoOp else
  let options := or_empty options in
  let groups := get_prop options "groups" in
  f <- telemetry_gtag ;;
  call_fn f [VStr "config"; trackingId; options] ;;
  ret (TrackingFunction groups).

(** [startAnalytics] (lines 100-109). *)
Definition startAnalytics : JS Tracker :=
  tracker <- configureBoundTracker (VStr MOZILLA_RESEARCH_TRACKER)
               (VObj (<["groups" := VStr "MozillaResearch"]>
                        {[ "custom_map" := VObj {[ "dimension1" := VStr "version" ]} ]})) ;;
  call_tracker tracker (VStr "event") (VStr "using_webvr_template")
    (VObj {[ "version" := VStr CURRENT_VERSION ]}) ;;
  ret tracker.

(** The closures of [setupPerformanceAPI] (lines 113-129). *)
Definition bound_mark (name : JSVal) : JS unit :=
  d <- doNotTrack ;;
  if d then ret tt else
  performance_mark name.

Definition performance_event (d : Q) : JSVal :=
  VObj (<["event_category" := VStr "Performance"]> {[ "value" := VNum (Math_round d) ]}).

Definition bound_measure (tracker : Tracker) (name start_ end_ : JSVal) : JS unit :=
  d <- doNotTrack ;;
  if d then ret tt else
  performance_measure name start_ end_ ;;
  entries <- performance_getEntriesByName name ;;
  match entries with
  | performanceEntry :: _ =>
      call_tracker tracker (VStr "event") name
        (performance_event (duration performanceEntry))
  | [] => throw (TypeError "Cannot read property 'duration' of undefined")
  end.

(** [setupPerformanceAPI] (lines 111-131). *)
Definition setupPerformanceAPI (tracker : Tracker) : JS unit :=
  modify (set_tel_performance {| mark := PerfBound tracker; measure := PerfBound tracker |}).

Definition arg (i : nat) (args : list JSVal) : JSVal := nth i args VUndef.

(** [telemetry.performance.mark(...)] and [.measure(...)] as the page calls
    them. *)
Definition telemetry_performance_mark (args : list JSVal) : JS unit :=
  p <- gets tel_performance ;;
  match mark p with
  | PerfNoOp => ret tt
  | PerfBound _ => bound_mark (arg 0 args)
  end.

Definition telemetry_performance_measure (args : list JSVal) : JS unit :=
  p <- gets tel_performance ;;
  match measure p with
  | PerfNoOp => ret tt
  | PerfBound tracker => bound_measure tracker (arg 0 args) (arg 1 args) (arg 2 args)
  end.

(** The function given to [onlyOnce] at lines 49-60. *)
Definition start_body (config : JSVal) : JS JSVal :=
  let config := or_empty config in
  (if truthy (get_prop config "errorLogging") then setupErrorLogging else ret tt) ;;
  (if truthy (get_prop config "analytics") then
     researchAnalytics <- startAnalytics ;;
     if truthy (get_prop config "performance")
     then setupPerformanceAPI researchAnalytics
     else ret tt
   else ret tt) ;;
  ret VUndef.

(** [onlyOnce] (lines 194-202); its variable [called] is the world's. *)
Definition onlyOnce (fn : JSVal -> JS JSVal) : JSVal -> JS JSVal :=
  fun a =>
    c <- gets called ;;
    if c then ret VUndef else
    returnValue <- fn a ;;
    modify (set_called true) ;;
    ret returnValue.

Definition telemetry_start : JSVal -> JS JSVal := onlyOnce start_body.

(** The module's top level (lines 22-62), evaluated once: the default
    [telemetry.performance], the fresh guard of [onlyOnce], then the call
    of [setupAnalytics].  The namespace objects [window.MozillaResearch] and
    [.telemetry] hold nothing but what the world records. *)
Definition module_load : JS unit :=
  modify (set_tel_performance {| mark := PerfNoOp; measure := PerfNoOp |}) ;;
  modify (set_called false) ;;
  setupAnalytics.

(** ** Example pages *)

(** A page with no Do-Not-Track preference and none of the globals. *)
Definition blank_page : World :=
  {| nav_doNotTrack := VUndef; nav_msDoNotTrack := VUndef; win_doNotTrack := VUndef;
     win_dataLayer := None; win_gtag := None; win_Raven := None;
     head := []; console := []; date_now := 1500000000000; perf_now := 0;
     timeline := []; tel_performance := {| mark := PerfNoOp; measure := PerfNoOp |};
     called := false; gtag_calls := [] |}.

(** The same page with Do-Not-Track enabled. *)
Definition dnt_page : World := set_flags (VStr "1") VUndef VUndef blank_page.

(** ** The page over time *)

(** The function of line 68 reads the global [dataLayer]; it can run as
    long as that global exists.  The module creates [dataLayer] before it
    installs the function and never removes it. *)
Definition gtag_ok (w : World) : bool :=
  match win_gtag w, win_dataLayer w with
  | Some GtagPush, None => false
  | _, _ => true
  end.

(** What decides whether [start] runs its body, and whether it returns. *)
Definition guard (w : World) : bool * bool := (called w, gtag_ok w).

(** The world after [args] went to the analytics channel. *)
Definition sent (args : list JSVal) (w : World) : World :=
  exec (call_fn (channel w) args) w.

(** The own properties of the options a tracker receives ([options || {}]). *)
Definition props_of (options : JSVal) : gmap string JSVal :=
  match or_empty options with
  | VObj m => m
  | _ => ∅
  end.

(** The options a bound tracker forwards: [send_to] is added when [groups]
    is truthy. *)
Definition forwarded (groups eventOptions : JSVal) : JSVal :=
  if truthy groups then VObj (<["send_to" := groups]> (props_of eventOptions))
  else or_empty eventOptions.

(** Options a tracker can extend: nothing, or an object. *)
Definition plain_options (options : JSVal) : bool :=
  match or_empty options with
  | VObj _ => true
  | _ => false
  end.

(** What happens on the page once the module is loaded: calls of the public
    API, completions of the injected scripts, raven.js defining its global,
    the user changing the preference, time passing. *)
Inductive Action : Type :=
| Start (config : JSVal)
| PerfMark (args : list JSVal)
| PerfMeasure (args : list JSVal)
| ScriptLoaded (i : nat)
| ScriptFailed (i : nat) (ev : gmap string JSVal)
| RavenDefined
| Preference (a b c : JSVal)
| Tick (d : Z) (p : Q).

Definition act (a : Action) (w : World) : World :=
  match a with
  | Start config => exec (telemetry_start config) w
  | PerfMark args => exec (telemetry_performance_mark args) w
  | PerfMeasure args => exec (telemetry_performance_measure args) w
  | ScriptLoaded i =>
      match head w !! i with
      | Some el => exec (on_load el) w
      | None => w
      end
  | ScriptFailed i ev =>
      match head w !! i with
      | Some el => exec (on_error el ev) w
      | None => w
      end
  | RavenDefined => set_Raven (Some {| raven_dsn := None; raven_installed := false |}) w
  | Preference a b c => set_flags a b c w
  | Tick d p => set_clocks d p w
  end.

Definition run (acts : list Action) (w : World) : World :=
  fold_left (fun w a => act a w) acts w.

Definition default_performance : PerfAPI := {| mark := PerfNoOp; measure := PerfNoOp |}.

(** A session on [blank_page]: the module loads, analytics and performance
    are started, and two intervals are measured under the same name, the
    first of 10 ms and the second of 30 ms. *)
Definition analytics_and_performance : JSVal :=
  VObj (<["analytics" := VBool true]> {[ "performance" := VBool true ]}).

Definition two_measures_before : World :=
  run [ Start analytics_and_performance;
        PerfMark [VStr "a"]; Tick 1500000000010 10; PerfMark [VStr "b"];
        PerfMeasure [VStr "m"; VStr "a"; VStr "b"];
        Tick 1500000000020 20; PerfMark [VStr "c"];
        Tick 1500000000050 50; PerfMark [VStr "d"] ]
      (exec module_load blank_page).

Definition two_measures_after : World :=
  act (PerfMeasure [VStr "m"; VStr "c"; VStr "d"]) two_measures_before.

(** The module loads under Do-Not-Track, then the user clears the
    preference. *)
Definition late_opt_in : World :=
  act (Preference VUndef VUndef VUndef) (exec module_load dnt_page).

(** ** Observations of the page *)

(** What tracking leaves on the page: the calls on the analytics channel,
    [dataLayer] and [gtag], the injected scripts, the User Timing buffer. *)
Definition footprint (w : World)
  : list GtagCall * option (list DLItem) * option GtagFn * list ScriptEl * list PerfEntry :=
  (gtag_calls w, win_dataLayer w, win_gtag w, head w, timeline w).

(** An action after which Do-Not-Track is still on when it was: anything
    but a change of preference that leaves none of the flags at "1". *)
Definition stays_private (a : Action) : bool :=
  match a with
  | Preference a b c =>
      strict_eq_str a "1" || strict_eq_str b "1" || strict_eq_str c "1"
  | _ => true
  end.

(** [window.gtag], and [window.dataLayer] as long as [gtag] is undefined. *)
Definition gtag_installation (w : World) : option GtagFn * option (option (list DLItem)) :=
  (win_gtag w,
   match win_gtag w with
   | None => Some (win_dataLayer w)
   | Some _ => None
   end).

(** [telemetry.performance] after [setupPerformanceAPI(NO_OP)]. *)
Definition unbound_performance : PerfAPI :=
  {| mark := PerfBound TrackerNoOp; measure := PerfBound TrackerNoOp |}.

(** The [measure] member can reach no channel: it is [NO_OP], or closed
    over the [NO_OP] tracker. *)
Definition quiet_performance (p : PerfAPI) : bool :=
  match measure p with
  | PerfNoOp | PerfBound TrackerNoOp => true
  | PerfBound (TrackingFunction _) => false
  end.

(** What a first [start] settles: the guard and the members of
    [telemetry.performance], with the calls made and the scripts injected
    so far. *)
Definition start_state (w : World) : bool * PerfAPI * list GtagCall * list ScriptEl :=
  (called w, tel_performance w, gtag_calls w, head w).

(** A page on which the function of line 68 is installed but the global
    [dataLayer] is gone. *)
Definition page_without_dataLayer : World := set_gtag (Some GtagPush) blank_page.

(** The values on which [to_string] is the host's conversion. *)
Definition prints_faithfully (v : JSVal) : bool :=
  match v with
  | VNum z => (Z.abs z <=? 2 ^ 53)%Z
  | VObj m => match m !! "[[DateValue]]", m !! "toString" with
              | None, None => true
              | _, _ => false
              end
  | _ => true
  end.

(** A time stamp that is a whole number of milliseconds, between 0 and
    2^53: the host subtracts two of them without rounding. *)
Definition whole_ms (t : Q) : bool :=
  (Qden t =? 1)%positive && (0 <=? Qnum t)%Z && (Qnum t <=? 2 ^ 53)%Z.

(** The module has loaded on [blank_page], then the page has removed
    [window.dataLayer]. *)
Definition page_after_dataLayer_removed : World :=
  set_dataLayer None (exec module_load blank_page).

(** The element was not injected by [setupErrorLogging]. *)
Definition no_raven_listener (el : ScriptEl) : bool :=
  match listener el with
  | Some RavenLoaded => false
  | _ => true
  end.

(** The action is not raven.js defining its global. *)
Definition not_RavenDefined (a : Action) : bool :=
  match a with
  | RavenDefined => false
  | _ => true
  end.

(** ** Judgements on computations *)

(** [m] does not change what [f] sees of the page, whether it returns or
    throws. *)
Definition keeps {A B} (f : World -> B) (m : JS A) : Prop :=
  forall w, f (exec m w) = f w.

(** On a page where [gtag] can run, [m] returns and leaves such a page. *)
Definition returns {A} (m : JS A) : Prop :=
  forall w, gtag_ok w = true ->
    exists a w', m w = (Normal a, w') /\ gtag_ok w' = true.

(** The element [setupErrorLogging] injects. *)
Definition raven_script : ScriptEl :=
  add_listeners (Some RavenLoaded)
    (set_script_prop "crossorigin" (VStr "anonymous")
       (set_script_prop "src" (VStr RAVEN_URL) createElement_script)).


(** * Properties *)

(** ** Values *)

Lemma strict_eq_str_true (v : JSVal) (s : string) :
  strict_eq_str v s = true <-> v = VStr s.
Proof.
  destruct v; simpl; try (split; [discriminate | intros H; discriminate H]).
  rewrite String.eqb_eq. split; [intros -> | intros [= ->]]; reflexivity.
Qed.

Lemma truthy_object (m : gmap string JSVal) : truthy (VObj m) = true.
Proof. reflexivity. Qed.

Lemma or_empty_truthy (v : JSVal) : truthy (or_empty v) = true.
Proof. unfold or_empty. destruct (truthy v) eqn:E; [exact E | reflexivity]. Qed.

Lemma or_empty_object (m : gmap string JSVal) : or_empty (VObj m) = VObj m.
Proof. reflexivity. Qed.

Lemma plain_options_props (o : JSVal) :
  plain_options o = true -> or_empty o = VObj (props_of o).
Proof.
  unfold plain_options, props_of. destruct (or_empty o); try discriminate. reflexivity.
Qed.

(** [Math.round] is within one half of its argument, and a tie goes up. *)
Lemma Math_round_nearest (x : Q) :
  (inject_Z (Math_round x) - (1 # 2) <= x)%Q /\ (x < inject_Z (Math_round x) + (1 # 2))%Q.
Proof.
  unfold Math_round.
  pose proof (Qfloor_le (x + (1 # 2))) as Hle.
  pose proof (Qlt_floor (x + (1 # 2))) as Hlt.
  rewrite inject_Z_plus in Hlt. change (inject_Z 1) with 1%Q in Hlt.
  split; lra.
Qed.

Example Math_round_half : Math_round (5 # 2) = 3%Z /\ Math_round (-5 # 2) = (-2)%Z.
Proof. split; reflexivity. Qed.

(** ** The monad *)

Lemma bind_ret_l {A B} (a : A) (k : A -> JS B) (w : World) : bind (ret a) k w = k a w.
Proof. reflexivity. Qed.

Lemma bind_gets {A B} (f : World -> A) (k : A -> JS B) (w : World) :
  bind (gets f) k w = k (f w) w.
Proof. reflexivity. Qed.

Lemma bind_modify {B} (f : World -> World) (k : unit -> JS B) (w : World) :
  bind (modify f) k w = k tt (f w).
Proof. reflexivity. Qed.

Lemma bind_throw {A B} (e : Exn) (k : A -> JS B) (w : World) :
  bind (throw e) k w = (Throw e, w).
Proof. reflexivity. Qed.

Lemma bind_normal {A B} (m : JS A) (k : A -> JS B) (w w' : World) (a : A) :
  m w = (Normal a, w') -> bind m k w = k a w'.
Proof. intros H. unfold bind. rewrite H. reflexivity. Qed.

(** Unfolds the monad in the goal. *)
Ltac js_unfold :=
  unfold bind, ret, gets, modify, throw, exec; simpl.

(** ** The privacy gate *)

(** C4: the Do-Not-Track predicate returns, leaves the page as it is, and
    answers true exactly when [navigator.doNotTrack],
    [navigator.msDoNotTrack] or [window.doNotTrack] is the string "1";
    when none of them is, it answers false. *)
Theorem doNotTrack_any_flag (w : World) :
  doNotTrack w = (Normal (dnt w), w) /\
  (dnt w = true <->
     nav_doNotTrack w = VStr "1" \/ nav_msDoNotTrack w = VStr "1" \/
     win_doNotTrack w = VStr "1") /\
  (dnt w = false <->
     nav_doNotTrack w <> VStr "1" /\ nav_msDoNotTrack w <> VStr "1" /\
     win_doNotTrack w <> VStr "1").
Proof.
  split; [reflexivity |].
  assert (Hiff : dnt w = true <->
     nav_doNotTrack w = VStr "1" \/ nav_msDoNotTrack w = VStr "1" \/
     win_doNotTrack w = VStr "1").
  { unfold dnt. rewrite !orb_true_iff, !strict_eq_str_true. tauto. }
  split; [exact Hiff |].
  destruct (dnt w) eqn:E.
  - split; [discriminate |]. intros (H1 & H2 & H3).
    destruct Hiff as [Hiff _]. destruct (Hiff eq_refl) as [H | [H | H]]; contradiction.
  - split; [| reflexivity]. intros _.
    repeat split; intros H; destruct Hiff as [_ Hiff];
      (assert (true = false) by (rewrite <- Hiff; auto); discriminate).
Qed.

(** Only the string "1" counts: the number 1 and the string "yes" do not. *)
Example doNotTrack_strict :
  dnt (set_flags (VNum 1) (VStr "yes") (VBool true) blank_page) = false /\
  dnt (set_flags VUndef VUndef (VStr "1") blank_page) = true.
Proof. split; reflexivity. Qed.

(** The gate reads nothing but the three flags. *)
Lemma dnt_set_dataLayer d w : dnt (set_dataLayer d w) = dnt w.
Proof. reflexivity. Qed.
Lemma dnt_set_gtag g w : dnt (set_gtag g w) = dnt w.
Proof. reflexivity. Qed.
Lemma dnt_set_head h w : dnt (set_head h w) = dnt w.
Proof. reflexivity. Qed.
Lemma dnt_set_gtag_calls l w : dnt (set_gtag_calls l w) = dnt w.
Proof. reflexivity. Qed.
Lemma dnt_set_tel_performance p w : dnt (set_tel_performance p w) = dnt w.
Proof. reflexivity. Qed.
Lemma dnt_set_called b w : dnt (set_called b w) = dnt w.
Proof. reflexivity. Qed.
Lemma dnt_set_timeline t w : dnt (set_timeline t w) = dnt w.
Proof. reflexivity. Qed.

Create Rewrite HintDb dnt_frame.
#[local] Hint Rewrite dnt_set_dataLayer dnt_set_gtag dnt_set_head dnt_set_gtag_calls
  dnt_set_tel_performance dnt_set_called dnt_set_timeline : dnt_frame.

(** ** The script loader *)

(** C9: the element [injectScript] appends has the given URL as its [src],
    and the loader consults no privacy flag; but the assignment of line 170
    writes a property called [crossorigin], which is not the [crossOrigin]
    attribute of the element, so the element carries no CORS setting and
    its request is made in no-cors mode, not as an anonymous CORS
    request. *)
Theorem injectScript_sets_no_cors_mode (url : JSVal) (cb : option Callback) (w : World) :
  exists el,
    injectScript url cb w = (Normal el, set_head (head w ++ [el]) w) /\
    src el = to_string url /\
    expando el !! "crossorigin" = Some (VStr "anonymous") /\
    crossOrigin el = None /\
    request_mode el = NoCors.
Proof.
  eexists. split; [reflexivity |].
  split; [reflexivity |]. split; [| split; reflexivity].
  simpl. apply lookup_insert_eq.
Qed.

(** Had line 170 written [crossOrigin], the request would be anonymous. *)
Example crossOrigin_is_case_sensitive :
  request_mode (set_script_prop "crossOrigin" (VStr "anonymous") createElement_script)
    = CorsAnonymous /\
  request_mode (set_script_prop "crossorigin" (VStr "anonymous") createElement_script)
    = NoCors.
Proof. split; reflexivity. Qed.

(** ** Performance instrumentation *)

(** C7: while Do-Not-Track is on, [measure] returns at once: the whole page,
    with its User Timing buffer and the analytics channel, is as before. *)
Theorem measure_gated (tracker : Tracker) (name start_ end_ : JSVal)
    (args : list JSVal) (w : World) :
  dnt w = true ->
  bound_measure tracker name start_ end_ w = (Normal tt, w) /\
  telemetry_performance_measure args w = (Normal tt, w).
Proof.
  intros H.
  assert (Hb : forall t n s e, bound_measure t n s e w = (Normal tt, w)).
  { intros. unfold bound_measure, doNotTrack. rewrite bind_gets, H. reflexivity. }
  split; [apply Hb |].
  unfold telemetry_performance_measure. rewrite bind_gets.
  destruct (measure (tel_performance w)); [reflexivity | apply Hb].
Qed.

Lemma measure_gated_witness :
  let w := set_flags (VStr "1") VUndef VUndef two_measures_before in
  measure (tel_performance w) = PerfBound (TrackingFunction (VStr "MozillaResearch")) /\
  telemetry_performance_measure [VStr "m"; VStr "c"; VStr "d"] w = (Normal tt, w).
Proof.
  split; [vm_compute; reflexivity |].
  apply (measure_gated TrackerNoOp VUndef VUndef VUndef). reflexivity.
Defined.

(** ** The analytics channel *)

(** A call on the channel is recorded, whatever function receives it. *)
Lemma call_fn_recorded (f : Fn) (args : list JSVal) (w : World) :
  gtag_calls (exec (call_fn f args) w)
  = gtag_calls w ++ [{| callee := f; call_args := args |}].
Proof.
  unfold call_fn. js_unfold.
  destruct f as [| []]; simpl; try reflexivity.
  destruct (win_dataLayer w); reflexivity.
Qed.

Lemma sent_recorded (args : list JSVal) (w : World) :
  gtag_calls (sent args w)
  = gtag_calls w ++ [{| callee := channel w; call_args := args |}].
Proof. apply call_fn_recorded. Qed.

(** On a page where [gtag] can run, the call returns. *)
Lemma call_fn_channel (args : list JSVal) (w : World) :
  gtag_ok w = true ->
  call_fn (channel w) args w = (Normal tt, sent args w).
Proof.
  unfold gtag_ok, sent, channel, call_fn. js_unfold.
  destruct (win_gtag w) as [[] |]; simpl; try reflexivity.
  destruct (win_dataLayer w); [reflexivity | discriminate].
Qed.

(** What the call changes: the record of calls and, for the function of
    line 68, [dataLayer]. *)
Lemma sent_dataLayer (args : list JSVal) (w : World) :
  win_dataLayer (sent args w)
  = match win_gtag w, win_dataLayer w with
    | Some GtagPush, Some l => Some (l ++ [DLArguments args])
    | _, d => d
    end.
Proof.
  unfold sent, channel, call_fn. js_unfold.
  destruct (win_gtag w) as [[] |]; simpl; try reflexivity.
  destruct (win_dataLayer w) eqn:E; simpl; rewrite ?E; reflexivity.
Qed.

Lemma sent_frame (args : list JSVal) (w : World) :
  dnt (sent args w) = dnt w /\ win_gtag (sent args w) = win_gtag w /\
  win_Raven (sent args w) = win_Raven w /\ head (sent args w) = head w /\
  console (sent args w) = console w /\ timeline (sent args w) = timeline w /\
  tel_performance (sent args w) = tel_performance w /\
  called (sent args w) = called w.
Proof.
  unfold sent, channel, call_fn. js_unfold.
  destruct (win_gtag w) as [[] |] eqn:Eg; simpl;
    destruct (win_dataLayer w) eqn:Ed; simpl; rewrite ?Eg;
    repeat split; reflexivity.
Qed.

Lemma sent_gtag_ok (args : list JSVal) (w : World) :
  gtag_ok w = true -> gtag_ok (sent args w) = true.
Proof.
  intros H. unfold gtag_ok.
  rewrite sent_dataLayer. destruct (sent_frame args w) as (_ & -> & _).
  unfold gtag_ok in H.
  destruct (win_gtag w) as [[] |]; try reflexivity;
    destruct (win_dataLayer w); try reflexivity; discriminate.
Qed.

(** When nothing is stored in [window.gtag], the channel is [NO_OP] and
    the call leaves the page as it was, but for its record. *)
Lemma sent_without_gtag (args : list JSVal) (w : World) :
  win_gtag w = None ->
  sent args w = set_gtag_calls (gtag_calls w ++ [{| callee := NO_OP; call_args := args |}]) w.
Proof. intros H. unfold sent, channel. rewrite H. reflexivity. Qed.

(** ** The tracker factory *)

Lemma configureBoundTracker_disallowed (trackingId options : JSVal) (w : World) :
  dnt w = true -> configureBoundTracker trackingId options w = (Normal TrackerNoOp, w).
Proof.
  intros H. unfold configureBoundTracker, doNotTrack. rewrite bind_gets, H. reflexivity.
Qed.

Lemma configureBoundTracker_allowed (trackingId options : JSVal) (w : World) :
  dnt w = false ->
  configureBoundTracker trackingId options w
  = match call_fn (channel w) [VStr "config"; trackingId; or_empty options] w with
    | (Normal _, w') => (Normal (TrackingFunction (get_prop (or_empty options) "groups")), w')
    | (Throw e, w') => (Throw e, w')
    end.
Proof.
  intros H. unfold configureBoundTracker, doNotTrack, telemetry_gtag.
  rewrite bind_gets, H, bind_gets. unfold bind.
  destruct (call_fn _ _ w) as [[[] | e] w']; reflexivity.
Qed.

Lemma trackingFunction_disallowed (groups command label options : JSVal) (w : World) :
  dnt w = true -> trackingFunction groups command label options w = (Normal tt, w).
Proof.
  intros H. unfold trackingFunction, doNotTrack. rewrite bind_gets, H. reflexivity.
Qed.

Lemma trackingFunction_allowed (groups command label options : JSVal) (w : World) :
  dnt w = false -> plain_options options = true ->
  trackingFunction groups command label options w
  = call_fn (channel w) [command; label; forwarded groups options] w.
Proof.
  intros H Hp. unfold trackingFunction, doNotTrack, telemetry_gtag, forwarded.
  rewrite bind_gets, H.
  rewrite (plain_options_props _ Hp).
  destruct (truthy groups); reflexivity.
Qed.

(** After a load under Do-Not-Track nothing is stored in [window.gtag],
    even when the preference is cleared later: the tracker is made and its
    'config' goes to [NO_OP]. *)
Example configureBoundTracker_late_opt_in :
  dnt late_opt_in = false /\
  configureBoundTracker (VStr "UA-77033033-6") VUndef late_opt_in
  = (Normal (TrackingFunction VUndef),
     set_gtag_calls [{| callee := NO_OP;
                        call_args := [VStr "config"; VStr "UA-77033033-6"; VObj ∅] |}]
       late_opt_in) /\
  win_dataLayer late_opt_in = None.
Proof. split; [| split]; reflexivity. Qed.

(** C2: called while Do-Not-Track is on, [configureBoundTracker] issues
    nothing and returns a function that does nothing whatever it is given,
    then and later; called while it is off, it issues exactly one 'config'
    command with the tracking id and the options on the analytics channel
    and returns a bound tracker. *)
Theorem configureBoundTracker_config_once (trackingId options : JSVal) (w : World) :
  (dnt w = true ->
     configureBoundTracker trackingId options w = (Normal TrackerNoOp, w) /\
     forall command label eventOptions w',
       call_tracker TrackerNoOp command label eventOptions w' = (Normal tt, w')) /\
  (dnt w = false ->
     let config := [VStr "config"; trackingId; or_empty options] in
     gtag_calls (exec (configureBoundTracker trackingId options) w)
     = gtag_calls w ++ [{| callee := channel w; call_args := config |}] /\
     (gtag_ok w = true ->
        configureBoundTracker trackingId options w
        = (Normal (TrackingFunction (get_prop (or_empty options) "groups")),
           sent config w))).
Proof.
  split; intros H.
  - split; [apply configureBoundTracker_disallowed; exact H | reflexivity].
  - cbv zeta. split.
    + unfold exec. rewrite (configureBoundTracker_allowed _ _ _ H).
      rewrite <- call_fn_recorded. unfold exec.
      destruct (call_fn _ _ w) as [[[] | e] w']; reflexivity.
    + intros Hok. rewrite (configureBoundTracker_allowed _ _ _ H).
      rewrite (call_fn_channel _ _ Hok). reflexivity.
Qed.

(** The two cases on concrete pages: under Do-Not-Track nothing is issued;
    after a load without it, one 'config' reaches [gtag]. *)
Lemma configureBoundTracker_config_once_witness :
  let options := VObj {[ "groups" := VStr "MozillaResearch" ]} in
  let w := exec module_load blank_page in
  configureBoundTracker (VStr "UA-77033033-6") options dnt_page
    = (Normal TrackerNoOp, dnt_page) /\
  configureBoundTracker (VStr "UA-77033033-6") options w
    = (Normal (TrackingFunction (VStr "MozillaResearch")),
       sent [VStr "config"; VStr "UA-77033033-6"; options] w).
Proof.
  split.
  - apply (proj1 (configureBoundTracker_config_once _ _ dnt_page)). reflexivity.
  - exact (proj2 (proj2 (configureBoundTracker_config_once (VStr "UA-77033033-6")
                           (VObj {[ "groups" := VStr "MozillaResearch" ]})
                           (exec module_load blank_page)) eq_refl) eq_refl).
Defined.

(** C1: a tracker made while tracking was allowed checks the gate again at
    every call.  With Do-Not-Track on, the call changes nothing and nothing
    goes to the analytics channel; with it off, the call is forwarded once,
    and its options carry [send_to] with the [groups] of construction time
    when [groups] was set. *)
Theorem bound_tracker_rechecks_gate (trackingId options : JSVal) (w0 w1 : World)
    (t : Tracker) (command label eventOptions : JSVal) (w : World) :
  dnt w0 = false ->
  configureBoundTracker trackingId options w0 = (Normal t, w1) ->
  let groups := get_prop (or_empty options) "groups" in
  let args := [command; label; forwarded groups eventOptions] in
  (dnt w = true ->
     call_tracker t command label eventOptions w = (Normal tt, w)) /\
  (dnt w = false -> plain_options eventOptions = true ->
     call_tracker t command label eventOptions w = call_fn (channel w) args w /\
     gtag_calls (exec (call_tracker t command label eventOptions) w)
     = gtag_calls w ++ [{| callee := channel w; call_args := args |}] /\
     (truthy groups = true ->
        get_prop (forwarded groups eventOptions) "send_to" = groups /\
        forall k, k <> "send_to" ->
          get_prop (forwarded groups eventOptions) k = get_prop (or_empty eventOptions) k) /\
     (truthy groups = false ->
        forwarded groups eventOptions = or_empty eventOptions)).
Proof.
  intros H0 Hc. cbv zeta.
  rewrite (configureBoundTracker_allowed _ _ _ H0) in Hc.
  assert (Ht : t = TrackingFunction (get_prop (or_empty options) "groups")).
  { destruct (call_fn _ _ w0) as [[[] | e] w']; [| discriminate].
    injection Hc as <- _. reflexivity. }
  subst t. simpl. split.
  - apply trackingFunction_disallowed.
  - intros Hd Hp. unfold exec. rewrite (trackingFunction_allowed _ _ _ _ _ Hd Hp).
    split; [reflexivity |]. split; [exact (call_fn_recorded _ _ _) |].
    unfold forwarded. split; intros Hg; rewrite Hg; [| reflexivity].
    split.
    + simpl. rewrite lookup_insert_eq. reflexivity.
    + intros k Hk. rewrite (plain_options_props _ Hp). simpl.
      rewrite lookup_insert_ne by congruence. reflexivity.
Qed.

Lemma bound_tracker_rechecks_gate_witness :
  let options := VObj {[ "groups" := VStr "MozillaResearch" ]} in
  let w0 := exec module_load blank_page in
  let w1 := exec (configureBoundTracker (VStr "UA-77033033-6") options) w0 in
  let t := TrackingFunction (VStr "MozillaResearch") in
  let flipped := set_flags (VStr "1") VUndef VUndef w1 in
  call_tracker t (VStr "event") (VStr "click") VUndef flipped = (Normal tt, flipped) /\
  gtag_calls (exec (call_tracker t (VStr "event") (VStr "click") VUndef) w1)
  = gtag_calls w1 ++
    [{| callee := WindowGtag GtagPush;
        call_args := [VStr "event"; VStr "click";
                      VObj {[ "send_to" := VStr "MozillaResearch" ]}] |}].
Proof.
  intros options w0 w1 t flipped. split.
  - exact (proj1 (bound_tracker_rechecks_gate (VStr "UA-77033033-6") options w0 w1 t
                    (VStr "event") (VStr "click") VUndef flipped eq_refl eq_refl)
             eq_refl).
  - exact (proj1 (proj2 (proj2 (bound_tracker_rechecks_gate (VStr "UA-77033033-6")
                                  options w0 w1 t
                                  (VStr "event") (VStr "click") VUndef w1 eq_refl eq_refl)
                          eq_refl eq_refl))).
Defined.

(** ** Module load *)

Lemma injectScript_appends (url : JSVal) (cb : option Callback) (w : World) :
  injectScript url cb w
  = (Normal (add_listeners cb (set_script_prop "crossorigin" (VStr "anonymous")
                                 (set_script_prop "src" url createElement_script))),
     set_head (head w ++ [add_listeners cb (set_script_prop "crossorigin" (VStr "anonymous")
                                 (set_script_prop "src" url createElement_script))]) w).
Proof. reflexivity. Qed.

Lemma setupAnalytics_disallowed (w : World) :
  dnt w = true -> setupAnalytics w = (Normal tt, w).
Proof. intros H. unfold setupAnalytics, doNotTrack. rewrite bind_gets, H. reflexivity. Qed.

(** C10: loading the module runs [setupAnalytics], whatever is configured
    later.  With Do-Not-Track off at that moment, [window.dataLayer] and
    [window.gtag] are defined afterwards (kept when the page had them), one
    'js' command has gone to [gtag], and a script element for gtag.js is in
    the head; with it on, none of this happens. *)
Theorem module_load_sets_up_analytics (w : World) :
  let w' := exec module_load w in
  let js := [VStr "js"; Date (date_now w)] in
  (dnt w = false ->
     exists el,
       module_load w = (Normal tt, w') /\
       win_gtag w' = Some (default GtagPush (win_gtag w)) /\
       is_Some (win_dataLayer w') /\
       gtag_calls w' = gtag_calls w ++ [{| callee := channel w'; call_args := js |}] /\
       (win_gtag w' = Some GtagPush ->
          win_dataLayer w' = Some (default [] (win_dataLayer w) ++ [DLArguments js])) /\
       head w' = head w ++ [el] /\ src el = GTAG_URL) /\
  (dnt w = true ->
     module_load w = (Normal tt, w') /\
     win_dataLayer w' = win_dataLayer w /\ win_gtag w' = win_gtag w /\
     gtag_calls w' = gtag_calls w /\ head w' = head w).
Proof.
  cbv zeta. split; intros H.
  - eexists. unfold module_load, setupAnalytics, doNotTrack, exec.
    rewrite !bind_modify, bind_gets. autorewrite with dnt_frame. rewrite H.
    unfold call_fn. js_unfold.
    destruct (win_gtag w) as [[] |] eqn:Eg; simpl;
      repeat split; try reflexivity; try discriminate; eauto.
  - unfold module_load, exec. rewrite !bind_modify.
    rewrite setupAnalytics_disallowed by (autorewrite with dnt_frame; exact H).
    repeat split.
Qed.

Lemma module_load_sets_up_analytics_witness :
  (exists el,
     head (exec module_load blank_page) = [el] /\ src el = GTAG_URL) /\
  win_gtag (exec module_load dnt_page) = None /\
  head (exec module_load dnt_page) = [].
Proof.
  split.
  - destruct (proj1 (module_load_sets_up_analytics blank_page) eq_refl)
      as (el & _ & _ & _ & _ & _ & Hh & Hs).
    exists el. split; [exact Hh | exact Hs].
  - destruct (proj2 (module_load_sets_up_analytics dnt_page) eq_refl)
      as (_ & _ & Hg & _ & Hh).
    split; [exact Hg | exact Hh].
Defined.

(** ** What the computations keep, and when they return *)

Section Keeps.
Context {B : Type} (f : World -> B).

Lemma keeps_ret {A} (a : A) : keeps f (ret a).
Proof. intros w. reflexivity. Qed.

Lemma keeps_gets {A} (g : World -> A) : keeps f (gets g).
Proof. intros w. reflexivity. Qed.

Lemma keeps_throw {A} (e : Exn) : keeps f (@throw A e).
Proof. intros w. reflexivity. Qed.

Lemma keeps_modify (g : World -> World) :
  (forall w, f (g w) = f w) -> keeps f (modify g).
Proof. intros H w. apply H. Qed.

Lemma keeps_bind {A C} (m : JS A) (k : A -> JS C) :
  keeps f m -> (forall a, keeps f (k a)) -> keeps f (bind m k).
Proof.
  intros Hm Hk w. unfold exec, bind. specialize (Hm w). unfold exec in Hm.
  destruct (m w) as [[a | e] w']; simpl in *.
  - rewrite <- Hm. apply Hk.
  - exact Hm.
Qed.
End Keeps.

Lemma returns_ret {A} (a : A) : returns (ret a).
Proof. intros w H. exists a, w. split; [reflexivity | exact H]. Qed.

Lemma returns_modify (g : World -> World) :
  (forall w, gtag_ok (g w) = gtag_ok w) -> returns (modify g).
Proof. intros Hg w H. exists tt, (g w). split; [reflexivity | rewrite Hg; exact H]. Qed.

Lemma returns_bind {A C} (m : JS A) (k : A -> JS C) :
  returns m -> (forall a, returns (k a)) -> returns (bind m k).
Proof.
  intros Hm Hk w H. destruct (Hm w H) as (a & w' & Hr & H').
  destruct (Hk a w' H') as (c & w'' & Hr' & H'').
  exists c, w''. split; [| exact H'']. unfold bind. rewrite Hr. exact Hr'.
Qed.

Lemma returns_if {A} (b : bool) (m1 m2 : JS A) :
  returns m1 -> returns m2 -> returns (if b then m1 else m2).
Proof. destruct b; auto. Qed.

Lemma returns_gate {A} (m1 m2 : JS A) :
  returns m1 -> returns m2 -> returns (bind doNotTrack (fun d => if d then m1 else m2)).
Proof.
  intros H1 H2 w H. unfold doNotTrack. rewrite bind_gets.
  destruct (dnt w); [apply H1 | apply H2]; exact H.
Qed.

(** A call through [telemetry._gtag] returns. *)
Lemma returns_telemetry_gtag (args : list JSVal) :
  returns (bind telemetry_gtag (fun f => call_fn f args)).
Proof.
  intros w H. unfold telemetry_gtag. rewrite bind_gets.
  exists tt, (sent args w). split; [apply call_fn_channel, H | apply sent_gtag_ok, H].
Qed.

Lemma returns_injectScript (url : JSVal) (cb : option Callback) :
  returns (injectScript url cb).
Proof.
  intros w H. rewrite injectScript_appends. eexists _, _. split; [reflexivity | exact H].
Qed.

Lemma returns_setupErrorLogging : returns setupErrorLogging.
Proof.
  unfold setupErrorLogging. apply returns_gate; [apply returns_ret |].
  apply returns_bind; [apply returns_injectScript | intros; apply returns_ret].
Qed.

Lemma returns_configureBoundTracker (trackingId options : JSVal) :
  returns (configureBoundTracker trackingId options).
Proof.
  unfold configureBoundTracker. apply returns_gate; [apply returns_ret |].
  intros w H. unfold telemetry_gtag. rewrite bind_gets.
  unfold bind. rewrite (call_fn_channel _ _ H).
  eexists _, _. split; [reflexivity | apply sent_gtag_ok, H].
Qed.

Lemma returns_call_tracker (t : Tracker) (command label : JSVal) (m : gmap string JSVal) :
  returns (call_tracker t command label (VObj m)).
Proof.
  destruct t as [| groups]; [apply returns_ret |].
  unfold call_tracker, trackingFunction. apply returns_gate; [apply returns_ret |].
  rewrite or_empty_object. unfold set_prop.
  destruct (truthy groups).
  - intros w H. rewrite bind_ret_l. apply returns_telemetry_gtag, H.
  - intros w H. rewrite bind_ret_l. apply returns_telemetry_gtag, H.
Qed.

Lemma returns_startAnalytics : returns startAnalytics.
Proof.
  unfold startAnalytics.
  apply returns_bind; [apply returns_configureBoundTracker | intros t].
  apply returns_bind; [apply returns_call_tracker | intros; apply returns_ret].
Qed.

Lemma returns_start_body (config : JSVal) : returns (start_body config).
Proof.
  unfold start_body.
  apply returns_bind.
  { apply returns_if; [apply returns_setupErrorLogging | apply returns_ret]. }
  intros _. apply returns_bind; [| intros; apply returns_ret].
  apply returns_if; [| apply returns_ret].
  apply returns_bind; [apply returns_startAnalytics | intros t].
  apply returns_if; [| apply returns_ret].
  apply returns_modify. reflexivity.
Qed.

(** The initialisation body returns [undefined]. *)
Lemma start_body_returns (config : JSVal) (w : World) :
  gtag_ok w = true -> start_body config w = (Normal VUndef, exec (start_body config) w).
Proof.
  intros H. destruct (returns_start_body config w H) as (a & w' & Hr & _).
  unfold exec. rewrite Hr. simpl. f_equal.
  unfold start_body in Hr. unfold bind in Hr.
  repeat match type of Hr with
         | context [match ?m ?w with _ => _ end] => destruct (m w) as [[? | ?] ?]
         end; try discriminate; injection Hr as <- _; reflexivity.
Qed.

(** *** The guard of [onlyOnce] is written by [onlyOnce] alone *)

Ltac keeps_step :=
  first [ apply keeps_ret | apply keeps_gets | apply keeps_throw
        | apply keeps_modify; intros; reflexivity
        | apply keeps_bind; [| intros ?] ].

Lemma keeps_guard_call_fn (f : Fn) (args : list JSVal) : keeps guard (call_fn f args).
Proof.
  intros w. unfold call_fn, guard, gtag_ok. js_unfold.
  destruct f as [| []]; simpl; try reflexivity.
  destruct (win_dataLayer w) eqn:Ed; simpl; rewrite ?Ed; [| reflexivity].
  destruct (win_gtag w) as [[] |]; reflexivity.
Qed.

Lemma keeps_guard_call_tracker (t : Tracker) (command label options : JSVal) :
  keeps guard (call_tracker t command label options).
Proof.
  destruct t as [| groups]; [apply keeps_ret |].
  unfold call_tracker, trackingFunction, doNotTrack, telemetry_gtag.
  keeps_step; [keeps_step |]. destruct a; [keeps_step |].
  keeps_step.
  - destruct (truthy groups); [| keeps_step].
    unfold set_prop. destruct (or_empty options); keeps_step.
  - keeps_step; [keeps_step | apply keeps_guard_call_fn].
Qed.

Lemma keeps_guard_console_warn (args : list JSVal) : keeps guard (console_warn args).
Proof. unfold console_warn. keeps_step. Qed.

Lemma keeps_guard_run_callback (cb : Callback) (err : JSVal) :
  keeps guard (run_callback cb err).
Proof.
  destruct cb; simpl.
  - unfold analytics_callback. destruct (truthy err);
      [apply keeps_guard_console_warn | keeps_step].
  - unfold raven_callback. destruct (truthy err); [apply keeps_guard_console_warn |].
    keeps_step; [keeps_step |]. destruct a; [| apply keeps_guard_console_warn].
    unfold startRaven. keeps_step; [keeps_step |]. destruct a; keeps_step.
Qed.

Lemma keeps_guard_mark (args : list JSVal) : keeps guard (telemetry_performance_mark args).
Proof.
  unfold telemetry_performance_mark. keeps_step; [keeps_step |].
  destruct (mark a); [keeps_step |].
  unfold bound_mark, doNotTrack, performance_mark.
  keeps_step; [keeps_step |]. destruct a0; [keeps_step |].
  destruct (reserved_name _); keeps_step.
Qed.

Lemma keeps_guard_performance_measure (name s e : JSVal) :
  keeps guard (performance_measure name s e).
Proof.
  intros w. unfold exec, performance_measure.
  destruct (resolve_mark e _ _); [| reflexivity].
  destruct (resolve_mark s _ _); reflexivity.
Qed.

Lemma keeps_guard_measure (args : list JSVal) :
  keeps guard (telemetry_performance_measure args).
Proof.
  unfold telemetry_performance_measure. keeps_step; [keeps_step |].
  destruct (measure a); [keeps_step |].
  unfold bound_measure, doNotTrack, performance_getEntriesByName.
  keeps_step; [keeps_step |]. destruct a0; [keeps_step |].
  keeps_step; [apply keeps_guard_performance_measure |].
  keeps_step; [keeps_step |].
  destruct a1; [keeps_step | apply keeps_guard_call_tracker].
Qed.

Lemma guard_eq (w w' : World) :
  guard w' = guard w -> called w' = called w /\ gtag_ok w' = gtag_ok w.
Proof. unfold guard. intros [= -> ->]. split; reflexivity. Qed.

(** ** The one-shot guard *)

Lemma telemetry_start_consumed (config : JSVal) (w : World) :
  called w = true -> telemetry_start config w = (Normal VUndef, w).
Proof.
  intros H. unfold telemetry_start, onlyOnce. rewrite bind_gets, H. reflexivity.
Qed.

Lemma telemetry_start_first (config : JSVal) (w : World) :
  gtag_ok w = true -> called w = false ->
  telemetry_start config w = (Normal VUndef, set_called true (exec (start_body config) w)).
Proof.
  intros Hok H. unfold telemetry_start, onlyOnce. rewrite bind_gets, H.
  rewrite (bind_normal _ _ _ _ _ (start_body_returns config w Hok)). reflexivity.
Qed.

(** Everything but the first [start] leaves the guard, and a page where
    [gtag] can run, as they are. *)
Lemma act_keeps_guard (a : Action) (w : World) :
  (forall config, a <> Start config) \/ called w = true ->
  guard (act a w) = guard w.
Proof.
  intros H. destruct a; simpl; try reflexivity.
  - destruct H as [H | H]; [exfalso; exact (H config eq_refl) |].
    unfold exec. rewrite (telemetry_start_consumed _ _ H). reflexivity.
  - apply keeps_guard_mark.
  - apply keeps_guard_measure.
  - destruct (head w !! i) as [el |]; [| reflexivity].
    unfold on_load. destruct (listener el);
      [apply keeps_guard_run_callback | reflexivity].
  - destruct (head w !! i) as [el |]; [| reflexivity].
    unfold on_error. destruct (listener el);
      [apply keeps_guard_run_callback | reflexivity].
Qed.

Lemma run_keeps_consumed (acts : list Action) (w : World) :
  called w = true -> called (run acts w) = true.
Proof.
  revert w. induction acts as [| a acts IH]; intros w H; [exact H |].
  simpl. apply IH.
  destruct (guard_eq _ _ (act_keeps_guard a w (or_intror H))) as [-> _]. exact H.
Qed.

(** The hypotheses of the next theorem hold when the module has loaded on a
    page where [gtag] can run, and still hold after anything but [start]. *)
Lemma loaded_page_ready (page : World) (acts : list Action) :
  gtag_ok page = true ->
  Forall (fun a => forall config, a <> Start config) acts ->
  let w := run acts (exec module_load page) in
  gtag_ok w = true /\ called w = false.
Proof.
  intros Hok Hacts. cbv zeta.
  assert (H0 : gtag_ok (exec module_load page) = true /\
               called (exec module_load page) = false).
  { unfold module_load, setupAnalytics, doNotTrack, exec.
    rewrite !bind_modify, bind_gets. autorewrite with dnt_frame.
    destruct (dnt page); [split; [exact Hok | reflexivity] |].
    unfold call_fn, gtag_ok in *. js_unfold.
    destruct (win_gtag page) as [[] |]; simpl; split; reflexivity. }
  revert H0. generalize (exec module_load page). clear Hok.
  induction Hacts as [| a acts Ha _ IH]; intros w H0; [exact H0 |].
  simpl. apply IH.
  destruct (guard_eq _ _ (act_keeps_guard a w (or_introl Ha))) as [-> ->]. exact H0.
Qed.

(** Where the first call of [start] returns, which it does on every page
    where [gtag] can run, it has run the initialisation body and consumed
    the guard; whatever happens on the page afterwards, other calls of
    [start] included, the guard stays consumed, and every later call, with
    any argument, returns and leaves the whole page as it is. *)
Theorem start_runs_once (w : World) (first : JSVal) (later : list Action) (again : JSVal) :
  gtag_ok w = true -> called w = false ->
  let w1 := exec (telemetry_start first) w in
  let w2 := run later w1 in
  telemetry_start first w = (Normal VUndef, set_called true (exec (start_body first) w)) /\
  called w2 = true /\
  telemetry_start again w2 = (Normal VUndef, w2).
Proof.
  intros Hok H. cbv zeta.
  pose proof (telemetry_start_first first w Hok H) as Hfirst.
  split; [exact Hfirst |].
  assert (Hc : called (run later (exec (telemetry_start first) w)) = true).
  { apply run_keeps_consumed. unfold exec. rewrite Hfirst. reflexivity. }
  split; [exact Hc | apply telemetry_start_consumed, Hc].
Qed.

(** A first call without error logging, a later one asking for everything:
    the later call changes nothing, no script is added. *)
Lemma start_runs_once_witness :
  let w := exec module_load blank_page in
  let everything :=
    VObj (<["errorLogging" := VBool true]>
            (<["analytics" := VBool true]> {[ "performance" := VBool true ]})) in
  let w2 := run [PerfMark [VStr "a"]; Start everything; Preference (VStr "1") VNull VNull]
                (exec (telemetry_start (VObj {[ "errorLogging" := VBool false ]})) w) in
  telemetry_start everything w2 = (Normal VUndef, w2) /\ length (head w2) = 1%nat.
Proof.
  intros w everything w2. split.
  - exact (proj2 (proj2 (start_runs_once w (VObj {[ "errorLogging" := VBool false ]})
                           [PerfMark [VStr "a"]; Start everything;
                            Preference (VStr "1") VNull VNull]
                           everything eq_refl eq_refl))).
  - reflexivity.
Defined.

(** C3, on [page_after_dataLayer_removed]: [onlyOnce] sets its guard after
    the body has returned (line 199 follows line 198), so a first [start]
    that throws does not consume it.  Here [start] with error logging and
    analytics injects raven.js, issues its 'config' and throws in [gtag];
    the guard is still unset, and the second call runs the body again: a
    second raven.js element, a second 'config', a second exception. *)
Theorem start_runs_again_after_throw :
  let config := VObj (<["errorLogging" := VBool true]> {[ "analytics" := VBool true ]}) in
  let w := page_after_dataLayer_removed in
  let w1 := exec (telemetry_start config) w in
  let w2 := exec (telemetry_start config) w1 in
  dnt w = false /\ called w = false /\
  fst (telemetry_start config w) = Throw (ReferenceError "dataLayer is not defined") /\
  called w1 = false /\
  head w1 = head w ++ [raven_script] /\
  fst (telemetry_start config w1) = Throw (ReferenceError "dataLayer is not defined") /\
  called w2 = false /\
  head w2 = head w ++ [raven_script; raven_script] /\
  map call_args (gtag_calls w2)
  = map call_args (gtag_calls w)
    ++ [[VStr "config"; VStr "UA-77033033-6";
         VObj (<["groups" := VStr "MozillaResearch"]>
                 {[ "custom_map" := VObj {[ "dimension1" := VStr "version" ]} ]})];
        [VStr "config"; VStr "UA-77033033-6";
         VObj (<["groups" := VStr "MozillaResearch"]>
                 {[ "custom_map" := VObj {[ "dimension1" := VStr "version" ]} ]})]].
Proof.
  cbv zeta.
  split; [vm_compute; reflexivity |].
  split; [vm_compute; reflexivity |].
  split; [vm_compute; reflexivity |].
  split; [vm_compute; reflexivity |].
  split; [vm_compute; reflexivity |].
  split; [vm_compute; reflexivity |].
  split; [vm_compute; reflexivity |].
  split; vm_compute; reflexivity.
Qed.

(** ** Performance without analytics *)

Lemma setupErrorLogging_effect (w : World) :
  setupErrorLogging w
  = (Normal tt, if dnt w then w else set_head (head w ++ [raven_script]) w).
Proof.
  unfold setupErrorLogging, doNotTrack. rewrite bind_gets.
  destruct (dnt w); reflexivity.
Qed.

(** Without [analytics], the body is at most [setupErrorLogging]. *)
Lemma start_body_without_analytics (config : JSVal) (w : World) :
  truthy (get_prop (or_empty config) "analytics") = false ->
  start_body config w
  = (Normal VUndef,
     if truthy (get_prop (or_empty config) "errorLogging")
     then (if dnt w then w else set_head (head w ++ [raven_script]) w)
     else w).
Proof.
  intros H. unfold start_body. rewrite H.
  destruct (truthy (get_prop (or_empty config) "errorLogging")).
  - unfold bind. rewrite setupErrorLogging_effect. reflexivity.
  - reflexivity.
Qed.

(** C5: a [start] that does not ask for analytics, whether or not it asks
    for performance, leaves [telemetry.performance] with its default
    members: no tracker is configured, and [mark] and [measure] return
    without changing anything, whatever their arguments. *)
Theorem performance_needs_analytics (config : JSVal) (args : list JSVal) (w : World) :
  truthy (get_prop (or_empty config) "analytics") = false ->
  tel_performance w = default_performance ->
  let w' := exec (telemetry_start config) w in
  tel_performance w' = default_performance /\
  gtag_calls w' = gtag_calls w /\
  telemetry_performance_mark args w' = (Normal tt, w') /\
  telemetry_performance_measure args w' = (Normal tt, w') /\
  (truthy (get_prop (or_empty config) "errorLogging") = false -> called w = false ->
   telemetry_start config w = (Normal VUndef, set_called true w)).
Proof.
  intros Ha Hp. cbv zeta.
  assert (Hstart : telemetry_start config w
    = (Normal VUndef,
       if called w then w
       else set_called true
              (if truthy (get_prop (or_empty config) "errorLogging")
               then (if dnt w then w else set_head (head w ++ [raven_script]) w)
               else w))).
  { unfold telemetry_start, onlyOnce. rewrite bind_gets.
    destruct (called w); [reflexivity |].
    rewrite (bind_normal _ _ _ _ _ (start_body_without_analytics config w Ha)).
    reflexivity. }
  assert (Hperf : tel_performance (exec (telemetry_start config) w) = default_performance).
  { unfold exec. rewrite Hstart. simpl.
    destruct (called w); [exact Hp |].
    destruct (truthy (get_prop (or_empty config) "errorLogging"));
      [destruct (dnt w) |]; exact Hp. }
  split; [exact Hperf |]. split.
  { unfold exec. rewrite Hstart. simpl.
    destruct (called w); [reflexivity |].
    destruct (truthy (get_prop (or_empty config) "errorLogging"));
      [destruct (dnt w) |]; reflexivity. }
  split; [| split].
  - unfold telemetry_performance_mark. rewrite bind_gets, Hperf. reflexivity.
  - unfold telemetry_performance_measure. rewrite bind_gets, Hperf. reflexivity.
  - intros He Hc. rewrite Hstart, Hc, He. reflexivity.
Qed.

Lemma performance_needs_analytics_witness :
  let w := exec module_load blank_page in
  let w' := exec (telemetry_start (VObj {[ "performance" := VBool true ]})) w in
  w' = set_called true w /\
  telemetry_performance_measure [VStr "m"; VStr "a"; VStr "b"] w' = (Normal tt, w').
Proof.
  intros w w'.
  pose proof (performance_needs_analytics (VObj {[ "performance" := VBool true ]})
                [VStr "m"; VStr "a"; VStr "b"] w eq_refl eq_refl) as H.
  split.
  - destruct H as (_ & _ & _ & _ & H). unfold w', exec. rewrite (H eq_refl eq_refl).
    reflexivity.
  - destruct H as (_ & _ & _ & H & _). exact H.
Defined.

(** ** Error reporting *)

(** C6: [setupErrorLogging] returns; when the load of raven.js fails, its
    callback logs one warning and returns, and [Raven] is left alone; when
    the load succeeds without a global [Raven], the same holds with the other
    warning.  Neither [start] nor the callbacks throw. *)
Theorem error_logging_failure_warns_once (w : World) (ev : gmap string JSVal)
    (config : JSVal) (later : World) :
  dnt w = false ->
  let w1 := exec setupErrorLogging w in
  exists el,
    setupErrorLogging w = (Normal tt, w1) /\
    head w1 = head w ++ [el] /\ src el = RAVEN_URL /\
    on_error el ev later
    = (Normal tt,
       set_console (console later ++ [[VStr "Could not load Raven.js script:"; VObj ev]])
         later) /\
    (win_Raven later = None ->
     on_load el later
     = (Normal tt,
        set_console (console later ++ [[VStr "Could not find `window.Raven` global"]])
          later)) /\
    (gtag_ok w = true -> fst (telemetry_start config w) = Normal VUndef).
Proof.
  intros H. cbv zeta. exists raven_script.
  unfold exec. rewrite setupErrorLogging_effect, H. simpl.
  split; [reflexivity |]. split; [reflexivity |]. split; [reflexivity |].
  split; [reflexivity |]. split.
  - intros Hr. unfold on_load, run_callback, raven_callback, bind, gets. simpl.
    rewrite Hr. reflexivity.
  - intros Hok. destruct (called w) eqn:Hc.
    + rewrite (telemetry_start_consumed _ _ Hc). reflexivity.
    + rewrite (telemetry_start_first _ _ Hok Hc). reflexivity.
Qed.

Lemma error_logging_failure_warns_once_witness :
  let w := exec module_load blank_page in
  let w1 := exec (telemetry_start (VObj {[ "errorLogging" := VBool true ]})) w in
  let failed := act (ScriptFailed 1 {[ "type" := VStr "error" ]}) w1 in
  length (console failed) = 1%nat /\ win_Raven failed = None /\
  length (console (act (ScriptLoaded 1) w1)) = 1%nat.
Proof.
  intros w w1 failed.
  destruct (error_logging_failure_warns_once w {[ "type" := VStr "error" ]}
              VUndef w1 eq_refl)
    as (el & _ & Hh & _ & He & Hl & _).
  assert (Hel : head w1 !! 1%nat = Some el).
  { apply (f_equal (fun l => l !! 1%nat)) in Hh. simpl in Hh.
    rewrite <- Hh. reflexivity. }
  unfold failed, act. rewrite Hel. unfold exec. rewrite He, (Hl eq_refl).
  repeat split.
Defined.

(** ** What [measure] reports *)

Lemma bound_measure_allowed (tracker : Tracker) (name start_ end_ : JSVal) (w : World) :
  dnt w = false ->
  bound_measure tracker name start_ end_ w
  = match performance_measure name start_ end_ w with
    | (Normal _, w') =>
        match sort_by_start
                (List.filter (fun e => String.eqb (entry_name e) (to_string name))
                   (timeline w')) with
        | e :: _ => call_tracker tracker (VStr "event") name
                      (performance_event (duration e)) w'
        | [] => (Throw (TypeError "Cannot read property 'duration' of undefined"), w')
        end
    | (Throw e, w') => (Throw e, w')
    end.
Proof.
  intros H. unfold bound_measure, doNotTrack. rewrite bind_gets, H.
  unfold bind at 1.
  destruct (performance_measure _ _ _ w) as [[[] | e] w']; [| reflexivity].
  unfold performance_getEntriesByName. rewrite bind_gets.
  destruct (sort_by_start _); reflexivity.
Qed.

(** When the buffer holds no entry of that name yet, the entry read back is
    the measure just recorded, and its rounded duration is what goes to the
    tracker. *)
Lemma bound_measure_fresh_name (tracker : Tracker) (name start_ end_ : JSVal)
    (w : World) (t_start t_end : Q) :
  dnt w = false ->
  List.filter (fun e => String.eqb (entry_name e) (to_string name)) (timeline w) = [] ->
  resolve_mark start_ 0 (timeline w) = Normal t_start ->
  resolve_mark end_ (perf_now w) (timeline w) = Normal t_end ->
  let recorded := {| entry_name := to_string name; entryType := Measure;
                     startTime := t_start; duration := t_end - t_start |} in
  let w' := set_timeline (timeline w ++ [recorded]) w in
  most_recent_entry (to_string name) w' = Some recorded /\
  bound_measure tracker name start_ end_ w
  = call_tracker tracker (VStr "event") name
      (performance_event (t_end - t_start)) w'.
Proof.
  intros H Hfresh Hs He. cbv zeta.
  assert (Hf : List.filter (fun e => String.eqb (entry_name e) (to_string name))
                 (timeline w ++ [{| entry_name := to_string name; entryType := Measure;
                                    startTime := t_start; duration := t_end - t_start |}])
               = [{| entry_name := to_string name; entryType := Measure;
                     startTime := t_start; duration := t_end - t_start |}]).
  { rewrite List.filter_app, Hfresh. simpl. rewrite String.eqb_refl. reflexivity. }
  split.
  - unfold most_recent_entry. simpl. rewrite Hf. reflexivity.
  - rewrite (bound_measure_allowed _ _ _ _ _ H).
    unfold performance_measure. rewrite He, Hs. simpl. rewrite Hf. reflexivity.
Qed.

(** C8, on the session [two_measures_before]: tracking is allowed and the
    marks exist; the second [measure] under the name "m" records an entry of
    30 ms, the most recent one of that name, and forwards one 'event' named
    "m" of category "Performance" whose value is 10, the duration of the
    first entry of that name: line 123 reads index 0 of a list in
    chronological order. *)
Theorem measure_forwards_oldest_entry :
  dnt two_measures_before = false /\
  telemetry_performance_measure [VStr "m"; VStr "c"; VStr "d"] two_measures_before
  = (Normal tt, two_measures_after) /\
  most_recent_entry "m" two_measures_after
  = Some {| entry_name := "m"; entryType := Measure; startTime := 20; duration := 30 |} /\
  Math_round 30 = 30%Z /\
  gtag_calls two_measures_after
  = gtag_calls two_measures_before ++
    [{| callee := WindowGtag GtagPush;
        call_args :=
          [VStr "event"; VStr "m";
           VObj (<["send_to" := VStr "MozillaResearch"]>
                   (<["event_category" := VStr "Performance"]>
                      {[ "value" := VNum 10 ]}))] |}].
Proof.
  split; [vm_compute; reflexivity |].
  split; [vm_compute; reflexivity |].
  split; [vm_compute; reflexivity |].
  split; vm_compute; reflexivity.
Qed.

(** The first of the two calls, on a fresh name, reports its own duration. *)
Example first_measure_reports_itself :
  let w := run [ Start analytics_and_performance;
                 PerfMark [VStr "a"]; Tick 1500000000010 10; PerfMark [VStr "b"] ]
               (exec module_load blank_page) in
  map call_args (gtag_calls (act (PerfMeasure [VStr "m"; VStr "a"; VStr "b"]) w))
  = map call_args (gtag_calls w) ++
    [[VStr "event"; VStr "m";
      VObj (<["send_to" := VStr "MozillaResearch"]>
              (<["event_category" := VStr "Performance"]> {[ "value" := VNum 10 ]}))]].
Proof. vm_compute. reflexivity. Qed.

(** * Further properties of the module *)

(** ** What the module's functions leave alone *)

(** Every function of the module is made of a few writes.  An observation
    [f] of the page that none of them changes is kept by all of the
    module. *)
Section Frame.
Context {B : Type} (f : World -> B).
Hypothesis f_console : forall c w, f (set_console c w) = f w.
Hypothesis f_Raven : forall r w, f (set_Raven r w) = f w.
Hypothesis f_head : forall h w, f (set_head h w) = f w.
Hypothesis f_timeline : forall t w, f (set_timeline t w) = f w.
Hypothesis f_tel_performance : forall p w, f (set_tel_performance p w) = f w.
Hypothesis f_called : forall b w, f (set_called b w) = f w.
Hypothesis f_clocks : forall d p w, f (set_clocks d p w) = f w.
Hypothesis f_sent : forall args w, f (sent args w) = f w.

Lemma frame_console_warn (args : list JSVal) : keeps f (console_warn args).
Proof. unfold console_warn. apply keeps_modify. intros w. apply f_console. Qed.

Lemma frame_run_callback (cb : Callback) (err : JSVal) : keeps f (run_callback cb err).
Proof.
  destruct cb; simpl.
  - unfold analytics_callback. destruct (truthy err);
      [apply frame_console_warn | apply keeps_ret].
  - unfold raven_callback. destruct (truthy err); [apply frame_console_warn |].
    apply keeps_bind; [apply keeps_gets | intros r].
    destruct r as [r |]; [| apply frame_console_warn].
    unfold startRaven. apply keeps_bind; [apply keeps_gets | intros r'].
    destruct r' as [r' |]; [| apply keeps_throw].
    apply keeps_modify. intros w. apply f_Raven.
Qed.

Lemma frame_on_load (el : ScriptEl) : keeps f (on_load el).
Proof.
  unfold on_load. destruct (listener el); [apply frame_run_callback | apply keeps_ret].
Qed.

Lemma frame_on_error (el : ScriptEl) (ev : gmap string JSVal) : keeps f (on_error el ev).
Proof.
  unfold on_error. destruct (listener el); [apply frame_run_callback | apply keeps_ret].
Qed.

Lemma frame_injectScript (url : JSVal) (cb : option Callback) :
  keeps f (injectScript url cb).
Proof.
  intros w. unfold exec. rewrite injectScript_appends. simpl. apply f_head.
Qed.

Lemma frame_setupErrorLogging : keeps f setupErrorLogging.
Proof.
  unfold setupErrorLogging, doNotTrack.
  apply keeps_bind; [apply keeps_gets | intros d].
  destruct d; [apply keeps_ret |].
  apply keeps_bind; [apply frame_injectScript | intros el; apply keeps_ret].
Qed.

Lemma frame_channel (args : list JSVal) :
  keeps f (bind telemetry_gtag (fun g => call_fn g args)).
Proof. intros w. exact (f_sent args w). Qed.

Lemma frame_call_tracker (t : Tracker) (command label options : JSVal) :
  keeps f (call_tracker t command label options).
Proof.
  destruct t as [| groups]; [apply keeps_ret |].
  unfold call_tracker, trackingFunction, doNotTrack.
  apply keeps_bind; [apply keeps_gets | intros d].
  destruct d; [apply keeps_ret |].
  apply keeps_bind; [| intros o; apply frame_channel].
  destruct (truthy groups); [| apply keeps_ret].
  unfold set_prop. destruct (or_empty options); first [apply keeps_ret | apply keeps_throw].
Qed.

Lemma frame_configureBoundTracker (trackingId options : JSVal) :
  keeps f (configureBoundTracker trackingId options).
Proof.
  intros w. unfold exec, configureBoundTracker, doNotTrack, telemetry_gtag.
  rewrite bind_gets. destruct (dnt w); [reflexivity |].
  rewrite bind_gets. unfold bind.
  pose proof (f_sent [VStr "config"; trackingId; or_empty options] w) as H.
  unfold sent, exec in H.
  destruct (call_fn _ _ w) as [[[] | e] w']; exact H.
Qed.

Lemma frame_startAnalytics : keeps f startAnalytics.
Proof.
  unfold startAnalytics.
  apply keeps_bind; [apply frame_configureBoundTracker | intros t].
  apply keeps_bind; [apply frame_call_tracker | intros u; apply keeps_ret].
Qed.

Lemma frame_start_body (config : JSVal) : keeps f (start_body config).
Proof.
  unfold start_body.
  apply keeps_bind.
  { destruct (truthy _); [apply frame_setupErrorLogging | apply keeps_ret]. }
  intros u. apply keeps_bind; [| intros u'; apply keeps_ret].
  destruct (truthy (get_prop (or_empty config) "analytics")); [| apply keeps_ret].
  apply keeps_bind; [apply frame_startAnalytics | intros t].
  destruct (truthy _); [| apply keeps_ret].
  apply keeps_modify. intros w. apply f_tel_performance.
Qed.

Lemma frame_telemetry_start (config : JSVal) : keeps f (telemetry_start config).
Proof.
  unfold telemetry_start, onlyOnce.
  apply keeps_bind; [apply keeps_gets | intros c].
  destruct c; [apply keeps_ret |].
  apply keeps_bind; [apply frame_start_body | intros r].
  apply keeps_bind; [| intros u; apply keeps_ret].
  apply keeps_modify. intros w. apply f_called.
Qed.

Lemma frame_performance_measure (name s e : JSVal) : keeps f (performance_measure name s e).
Proof.
  intros w. unfold exec, performance_measure.
  destruct (resolve_mark e _ _); [| reflexivity].
  destruct (resolve_mark s _ _); [apply f_timeline | reflexivity].
Qed.

Lemma frame_mark (args : list JSVal) : keeps f (telemetry_performance_mark args).
Proof.
  unfold telemetry_performance_mark.
  apply keeps_bind; [apply keeps_gets | intros p].
  destruct (mark p); [apply keeps_ret |].
  unfold bound_mark, doNotTrack, performance_mark.
  apply keeps_bind; [apply keeps_gets | intros d].
  destruct d; [apply keeps_ret |].
  destruct (reserved_name _); [apply keeps_throw |].
  apply keeps_modify. intros w. apply f_timeline.
Qed.

Lemma frame_bound_measure (t : Tracker) (name s e : JSVal) :
  (forall command label options, keeps f (call_tracker t command label options)) ->
  keeps f (bound_measure t name s e).
Proof.
  intros Ht. unfold bound_measure, doNotTrack, performance_getEntriesByName.
  apply keeps_bind; [apply keeps_gets | intros d].
  destruct d; [apply keeps_ret |].
  apply keeps_bind; [apply frame_performance_measure | intros u].
  apply keeps_bind; [apply keeps_gets | intros entries].
  destruct entries; [apply keeps_throw | apply Ht].
Qed.

Lemma frame_measure (args : list JSVal) : keeps f (telemetry_performance_measure args).
Proof.
  unfold telemetry_performance_measure.
  apply keeps_bind; [apply keeps_gets | intros p].
  destruct (measure p); [apply keeps_ret |].
  apply frame_bound_measure. intros. apply frame_call_tracker.
Qed.

Lemma frame_act (a : Action) (w : World) :
  (forall x y z, a = Preference x y z -> f (set_flags x y z w) = f w) ->
  f (act a w) = f w.
Proof.
  intros Hp. destruct a; simpl.
  - apply frame_telemetry_start.
  - apply frame_mark.
  - apply frame_measure.
  - destruct (head w !! i); [apply frame_on_load | reflexivity].
  - destruct (head w !! i); [apply frame_on_error | reflexivity].
  - apply f_Raven.
  - apply (Hp _ _ _ eq_refl).
  - apply f_clocks.
Qed.

End Frame.

(** The gate's answer changes with the preference only. *)
Lemma act_keeps_dnt (a : Action) (w : World) :
  dnt w = true -> stays_private a = true -> dnt (act a w) = true.
Proof.
  intros H Ha. rewrite <- H. apply frame_act; try reflexivity.
  - intros args w'. apply (sent_frame args w').
  - intros x y z ->. rewrite H. exact Ha.
Qed.

Lemma act_keeps_gtag_installation (a : Action) (w : World) :
  gtag_installation (act a w) = gtag_installation w.
Proof.
  apply frame_act; try reflexivity.
  intros args w'. unfold gtag_installation.
  rewrite sent_dataLayer. destruct (sent_frame args w') as (_ & -> & _).
  destruct (win_gtag w'); reflexivity.
Qed.

(** ** Under Do-Not-Track *)

Lemma bound_measure_disallowed (t : Tracker) (name s e : JSVal) (w : World) :
  dnt w = true -> bound_measure t name s e w = (Normal tt, w).
Proof. intros H. unfold bound_measure, doNotTrack. rewrite bind_gets, H. reflexivity. Qed.

Lemma bound_mark_disallowed (name : JSVal) (w : World) :
  dnt w = true -> bound_mark name w = (Normal tt, w).
Proof. intros H. unfold bound_mark, doNotTrack. rewrite bind_gets, H. reflexivity. Qed.

Lemma startAnalytics_disallowed (w : World) :
  dnt w = true -> startAnalytics w = (Normal TrackerNoOp, w).
Proof.
  intros H. unfold startAnalytics.
  rewrite (bind_normal _ _ _ _ _ (configureBoundTracker_disallowed _ _ w H)).
  reflexivity.
Qed.

(** Under Do-Not-Track the body of [start] writes [telemetry.performance]
    at most, and then with closures over [NO_OP]. *)
Lemma start_body_disallowed (config : JSVal) (w : World) :
  dnt w = true ->
  start_body config w
  = (Normal VUndef,
     if truthy (get_prop (or_empty config) "analytics")
        && truthy (get_prop (or_empty config) "performance")
     then set_tel_performance unbound_performance w
     else w).
Proof.
  intros H. unfold start_body.
  assert (He : (if truthy (get_prop (or_empty config) "errorLogging")
                then setupErrorLogging else ret tt) w = (Normal tt, w)).
  { destruct (truthy _); [| reflexivity]. rewrite setupErrorLogging_effect, H. reflexivity. }
  rewrite (bind_normal _ _ _ _ _ He).
  destruct (truthy (get_prop (or_empty config) "analytics")); [| reflexivity].
  unfold bind at 1.
  rewrite (bind_normal _ _ _ _ _ (startAnalytics_disallowed w H)).
  destruct (truthy (get_prop (or_empty config) "performance")); reflexivity.
Qed.

Lemma act_footprint_disallowed (a : Action) (w : World) :
  dnt w = true -> footprint (act a w) = footprint w.
Proof.
  intros H. destruct a; simpl; try reflexivity.
  - unfold exec, telemetry_start, onlyOnce. rewrite bind_gets.
    destruct (called w); [reflexivity |].
    rewrite (bind_normal _ _ _ _ _ (start_body_disallowed config w H)).
    destruct (_ && _); reflexivity.
  - unfold exec, telemetry_performance_mark. rewrite bind_gets.
    destruct (mark (tel_performance w)); [reflexivity |].
    rewrite (bound_mark_disallowed _ _ H). reflexivity.
  - unfold exec, telemetry_performance_measure. rewrite bind_gets.
    destruct (measure (tel_performance w)); [reflexivity |].
    rewrite (bound_measure_disallowed _ _ _ _ _ H). reflexivity.
  - destruct (head w !! i); [| reflexivity].
    apply (frame_on_load footprint); reflexivity.
  - destruct (head w !! i); [| reflexivity].
    apply (frame_on_error footprint); reflexivity.
Qed.

(** X1: as long as Do-Not-Track stays on, whatever the page does ([start]
    with any configuration, [mark], [measure], completions of scripts
    injected earlier), nothing is sent on the analytics channel, [dataLayer]
    and [gtag] are not written, no script is injected and no timing entry is
    recorded. *)
Theorem nothing_tracked_under_dnt (acts : list Action) (w : World) :
  dnt w = true ->
  forallb stays_private acts = true ->
  dnt (run acts w) = true /\
  gtag_calls (run acts w) = gtag_calls w /\
  win_dataLayer (run acts w) = win_dataLayer w /\
  win_gtag (run acts w) = win_gtag w /\
  head (run acts w) = head w /\
  timeline (run acts w) = timeline w.
Proof.
  intros H Hacts.
  assert (Hrun : dnt (run acts w) = true /\ footprint (run acts w) = footprint w).
  { revert w H. induction acts as [| a acts IH]; intros w H; [split; [exact H | reflexivity] |].
    simpl in Hacts. apply andb_prop in Hacts as [Ha Hacts].
    simpl. destruct (IH Hacts (act a w) (act_keeps_dnt a w H Ha)) as [Hd Hf].
    split; [exact Hd |]. rewrite Hf. apply act_footprint_disallowed, H. }
  destruct Hrun as [Hd Hf]. unfold footprint in Hf.
  injection Hf as -> -> -> -> ->. repeat split; assumption.
Qed.

Lemma nothing_tracked_under_dnt_witness :
  let w := set_flags VUndef (VStr "1") VUndef two_measures_before in
  let w' := run [ Start analytics_and_performance; PerfMark [VStr "e"];
                  PerfMeasure [VStr "m"; VStr "a"; VStr "e"]; ScriptFailed 0 ∅;
                  Preference (VStr "1") VUndef VUndef; Tick 0 60 ] w in
  gtag_calls w' = gtag_calls w /\ head w' = head w /\ timeline w' = timeline w.
Proof.
  intros w w'.
  destruct (nothing_tracked_under_dnt
              [ Start analytics_and_performance; PerfMark [VStr "e"];
                PerfMeasure [VStr "m"; VStr "a"; VStr "e"]; ScriptFailed 0 ∅;
                Preference (VStr "1") VUndef VUndef; Tick 0 60 ] w eq_refl eq_refl)
    as (_ & Hc & _ & _ & Hh & Ht).
  split; [exact Hc | split; [exact Hh | exact Ht]].
Defined.

(** ** After a load under Do-Not-Track *)

Lemma run_keeps_gtag_installation (acts : list Action) (w : World) :
  gtag_installation (run acts w) = gtag_installation w.
Proof.
  revert w. induction acts as [| a acts IH]; intros w; [reflexivity |].
  simpl. rewrite IH. apply act_keeps_gtag_installation.
Qed.

(** X2: only the load of the module installs [gtag].  When the module has
    loaded under Do-Not-Track on a page without [gtag], then whatever
    happens later, the preference being cleared and [start] called included,
    [window.gtag] stays undefined and [window.dataLayer] is never written:
    collection does not resume. *)
Theorem load_under_dnt_never_installs_gtag (page : World) (acts : list Action) :
  dnt page = true -> win_gtag page = None ->
  win_gtag (run acts (exec module_load page)) = None /\
  win_dataLayer (run acts (exec module_load page)) = win_dataLayer page /\
  channel (run acts (exec module_load page)) = NO_OP.
Proof.
  intros H Hg.
  pose proof (run_keeps_gtag_installation acts (exec module_load page)) as Hi.
  assert (Hl : gtag_installation (exec module_load page) = (None, Some (win_dataLayer page))).
  { unfold module_load, exec. rewrite !bind_modify.
    rewrite setupAnalytics_disallowed by (autorewrite with dnt_frame; exact H).
    unfold gtag_installation. simpl. rewrite Hg. reflexivity. }
  rewrite Hl in Hi. unfold gtag_installation in Hi.
  assert (Hn : win_gtag (run acts (exec module_load page)) = None).
  { injection Hi as Hi _. exact Hi. }
  rewrite Hn in Hi. injection Hi as Hi.
  split; [exact Hn |]. split; [exact Hi |]. unfold channel. rewrite Hn. reflexivity.
Qed.

Lemma load_under_dnt_never_installs_gtag_witness :
  let w := run [ Preference VUndef VUndef VUndef; Start analytics_and_performance;
                 PerfMark [VStr "a"]; PerfMeasure [VStr "m"; VStr "a"] ]
               (exec module_load dnt_page) in
  dnt w = false /\ win_gtag w = None /\ win_dataLayer w = None.
Proof.
  intros w. split; [reflexivity |].
  destruct (load_under_dnt_never_installs_gtag dnt_page
              [ Preference VUndef VUndef VUndef; Start analytics_and_performance;
                PerfMark [VStr "a"]; PerfMeasure [VStr "m"; VStr "a"] ]
              eq_refl eq_refl) as (Hg & Hd & _).
  split; [exact Hg | exact Hd].
Defined.

(** ** A first [start] under Do-Not-Track *)

Lemma act_keeps_start_state (a : Action) (w : World) :
  called w = true -> quiet_performance (tel_performance w) = true ->
  start_state (act a w) = start_state w.
Proof.
  intros Hc Hq. destruct a; simpl; try reflexivity.
  - unfold exec. rewrite (telemetry_start_consumed _ _ Hc). reflexivity.
  - apply (frame_mark start_state). reflexivity.
  - unfold exec, telemetry_performance_measure. rewrite bind_gets.
    unfold quiet_performance in Hq.
    destruct (measure (tel_performance w)) as [| [| groups]];
      [reflexivity | | discriminate].
    apply (frame_bound_measure start_state); [reflexivity |].
    intros command label options. apply keeps_ret.
  - destruct (head w !! i); [| reflexivity].
    apply (frame_on_load start_state); reflexivity.
  - destruct (head w !! i); [| reflexivity].
    apply (frame_on_error start_state); reflexivity.
Qed.

Lemma run_keeps_start_state (acts : list Action) (w : World) :
  called w = true -> quiet_performance (tel_performance w) = true ->
  start_state (run acts w) = start_state w.
Proof.
  revert w. induction acts as [| a acts IH]; intros w Hc Hq; [reflexivity |].
  pose proof (act_keeps_start_state a w Hc Hq) as Ha.
  simpl. rewrite <- Ha. unfold start_state in Ha. injection Ha as Ha1 Ha2 _ _.
  apply IH; [rewrite Ha1; exact Hc | rewrite Ha2; exact Hq].
Qed.

(** X3: a first [start] made under Do-Not-Track returns, consumes the guard,
    sends nothing and injects nothing, whatever it is asked for; and for the
    rest of the page's life, even when the preference is cleared later,
    nothing is sent on the analytics channel and no script is injected. *)
Theorem start_under_dnt_silences_the_page (config : JSVal) (acts : list Action) (w : World) :
  dnt w = true -> called w = false ->
  quiet_performance (tel_performance w) = true ->
  let w1 := exec (telemetry_start config) w in
  telemetry_start config w = (Normal VUndef, w1) /\
  called w1 = true /\
  footprint w1 = footprint w /\
  gtag_calls (run acts w1) = gtag_calls w /\
  head (run acts w1) = head w.
Proof.
  intros H Hc Hq. cbv zeta.
  assert (Hs : telemetry_start config w
    = (Normal VUndef,
       set_called true
         (if truthy (get_prop (or_empty config) "analytics")
             && truthy (get_prop (or_empty config) "performance")
          then set_tel_performance unbound_performance w
          else w))).
  { unfold telemetry_start, onlyOnce. rewrite bind_gets, Hc.
    rewrite (bind_normal _ _ _ _ _ (start_body_disallowed config w H)). reflexivity. }
  unfold exec. rewrite Hs. simpl.
  split; [reflexivity |]. split; [reflexivity |].
  split; [destruct (_ && _); reflexivity |].
  match goal with
  | |- context [run acts ?w1] =>
      assert (Hr : start_state (run acts w1) = start_state w1)
  end.
  { apply run_keeps_start_state; [reflexivity |].
    destruct (_ && _); [reflexivity | exact Hq]. }
  unfold start_state in Hr. injection Hr as _ _ -> ->.
  destruct (_ && _); split; reflexivity.
Qed.

Lemma start_under_dnt_silences_the_page_witness :
  let w1 := exec (telemetry_start analytics_and_performance) (exec module_load dnt_page) in
  let w2 := run [ Preference VUndef VUndef VUndef; PerfMark [VStr "a"];
                  PerfMeasure [VStr "m"; VStr "a"]; Start analytics_and_performance ] w1 in
  dnt w2 = false /\ gtag_calls w2 = [] /\ head w2 = [] /\ length (timeline w2) = 2%nat.
Proof.
  intros w1 w2.
  destruct (start_under_dnt_silences_the_page analytics_and_performance
              [ Preference VUndef VUndef VUndef; PerfMark [VStr "a"];
                PerfMeasure [VStr "m"; VStr "a"]; Start analytics_and_performance ]
              (exec module_load dnt_page) eq_refl eq_refl eq_refl)
    as (_ & _ & _ & Hc & Hh).
  split; [reflexivity |]. split; [exact Hc |]. split; [exact Hh | reflexivity].
Defined.

(** ** [start] returns *)

Lemma act_keeps_gtag_ok (a : Action) (w : World) :
  gtag_ok w = true -> gtag_ok (act a w) = true.
Proof.
  intros Hok.
  assert (Hother : (forall config, a <> Start config) -> gtag_ok (act a w) = true).
  { intros Ha. destruct (guard_eq _ _ (act_keeps_guard a w (or_introl Ha))) as [_ ->].
    exact Hok. }
  destruct a; try (apply Hother; discriminate).
  simpl. destruct (called w) eqn:Hc.
  - unfold exec. rewrite (telemetry_start_consumed _ _ Hc). exact Hok.
  - unfold exec. rewrite (telemetry_start_first _ _ Hok Hc). simpl.
    destruct (returns_start_body config w Hok) as (r & w' & Hr & Hok').
    unfold exec. rewrite Hr. exact Hok'.
Qed.

Lemma run_keeps_gtag_ok (acts : list Action) (w : World) :
  gtag_ok w = true -> gtag_ok (run acts w) = true.
Proof.
  revert w. induction acts as [| a acts IH]; intros w H; [exact H |].
  simpl. apply IH, act_keeps_gtag_ok, H.
Qed.

(** X4: once the module has loaded on a page where [gtag] can run (none
    installed, a foreign one, or the pushing one with its [dataLayer]), a
    call of [start] never throws: at any later moment and with any argument
    it returns [undefined]. *)
Theorem start_never_throws (page : World) (acts : list Action) (config : JSVal) :
  gtag_ok page = true ->
  fst (telemetry_start config (run acts (exec module_load page))) = Normal VUndef.
Proof.
  intros Hok.
  destruct (loaded_page_ready page [] Hok ltac:(constructor)) as [Hl _]. simpl in Hl.
  pose proof (run_keeps_gtag_ok acts _ Hl) as Hr.
  destruct (called (run acts (exec module_load page))) eqn:Hc.
  - rewrite (telemetry_start_consumed _ _ Hc). reflexivity.
  - rewrite (telemetry_start_first _ _ Hr Hc). reflexivity.
Qed.

Lemma start_never_throws_witness :
  fst (telemetry_start (VStr "analytics")
         (run [PerfMeasure [VStr "m"; VStr "nowhere"]; Start VNull]
              (exec module_load (set_gtag (Some GtagHost) blank_page))))
  = Normal VUndef.
Proof.
  exact (start_never_throws (set_gtag (Some GtagHost) blank_page)
           [PerfMeasure [VStr "m"; VStr "nowhere"]; Start VNull] (VStr "analytics") eq_refl).
Defined.

(** ** [onlyOnce] *)

(** X5: [onlyOnce] sets its guard after the function has returned.  When
    the function throws, the exception reaches the caller and the guard is
    not consumed: the next call runs the function again, and the first call
    that returns consumes the guard and hands back the function's value. *)
Theorem onlyOnce_retries_after_throw (fn : JSVal -> JS JSVal) (a b : JSVal)
    (w w' w'' : World) (e : Exn) (r : JSVal) :
  called w = false ->
  fn a w = (Throw e, w') -> called w' = false ->
  fn b w' = (Normal r, w'') ->
  onlyOnce fn a w = (Throw e, w') /\
  onlyOnce fn b w' = (Normal r, set_called true w'') /\
  forall c, onlyOnce fn c (set_called true w'') = (Normal VUndef, set_called true w'').
Proof.
  intros Hc Ha Hc' Hb. unfold onlyOnce. split; [| split].
  - rewrite bind_gets, Hc. unfold bind. rewrite Ha. reflexivity.
  - rewrite bind_gets, Hc'. unfold bind. rewrite Hb. reflexivity.
  - intros c. reflexivity.
Qed.

(** On a page whose [dataLayer] is gone, [start] with analytics throws in
    [gtag] and can be called again. *)
Lemma onlyOnce_retries_after_throw_witness :
  let w := page_without_dataLayer in
  let w' := exec (telemetry_start (VObj {[ "analytics" := VBool true ]})) w in
  telemetry_start (VObj {[ "analytics" := VBool true ]}) w
    = (Throw (ReferenceError "dataLayer is not defined"), w') /\
  telemetry_start VUndef w' = (Normal VUndef, set_called true w').
Proof.
  intros w w'.
  assert (Ha : start_body (VObj {[ "analytics" := VBool true ]}) w
               = (Throw (ReferenceError "dataLayer is not defined"), w'))
    by (vm_compute; reflexivity).
  assert (Hb : start_body VUndef w' = (Normal VUndef, w')) by (vm_compute; reflexivity).
  destruct (onlyOnce_retries_after_throw start_body
              (VObj {[ "analytics" := VBool true ]}) VUndef w w' w'
              (ReferenceError "dataLayer is not defined") VUndef
              eq_refl Ha eq_refl Hb) as (H1 & H2 & _).
  split; [exact H1 | exact H2].
Defined.

(** ** [mark] and [measure] *)

Lemma telemetry_performance_mark_allowed (t : Tracker) (args : list JSVal) (w : World) :
  mark (tel_performance w) = PerfBound t -> dnt w = false ->
  reserved_name (to_string (arg 0 args)) = false ->
  telemetry_performance_mark args w
  = (Normal tt,
     set_timeline (timeline w ++ [{| entry_name := to_string (arg 0 args);
                                     entryType := Mark;
                                     startTime := perf_now w;
                                     duration := 0 |}]) w).
Proof.
  intros Hm H Hr. unfold telemetry_performance_mark. rewrite bind_gets, Hm.
  unfold bound_mark, doNotTrack. rewrite bind_gets, H.
  unfold performance_mark. rewrite Hr. reflexivity.
Qed.

Lemma find_mark_last (name : string) (tl : list PerfEntry) (t : Q) :
  find_mark name (tl ++ [{| entry_name := name; entryType := Mark;
                            startTime := t; duration := 0 |}]) = Some t.
Proof.
  unfold find_mark. rewrite List.filter_app. simpl. rewrite String.eqb_refl. simpl.
  rewrite last_snoc. reflexivity.
Qed.

(** X6: once performance instrumentation is set up and tracking is allowed,
    [mark] names the entry by its first argument as a string (taken here
    among the values [prints_faithfully] admits).  For a name that is not
    reserved it records exactly one mark at the current time, which is then
    the mark a [measure] resolves under that name; for the name of a
    [PerformanceTiming] attribute the host's [SyntaxError] reaches the
    caller and nothing is recorded. *)
Theorem mark_records_one_entry (t : Tracker) (args : list JSVal) (w : World) :
  mark (tel_performance w) = PerfBound t ->
  dnt w = false ->
  prints_faithfully (arg 0 args) = true ->
  let name := to_string (arg 0 args) in
  (reserved_name name = false ->
   telemetry_performance_mark args w
   = (Normal tt,
      set_timeline (timeline w ++ [{| entry_name := name; entryType := Mark;
                                      startTime := perf_now w; duration := 0 |}]) w) /\
   find_mark name (timeline (exec (telemetry_performance_mark args) w))
   = Some (perf_now w)) /\
  (reserved_name name = true ->
   exists msg, telemetry_performance_mark args w = (Throw (SyntaxError msg), w)).
Proof.
  intros Hm H _. cbv zeta. split; intros Hr.
  - pose proof (telemetry_performance_mark_allowed t args w Hm H Hr) as He.
    split; [exact He |].
    unfold exec. rewrite He. simpl. apply find_mark_last.
  - unfold telemetry_performance_mark. rewrite bind_gets, Hm.
    unfold bound_mark, doNotTrack. rewrite bind_gets, H.
    unfold performance_mark. rewrite Hr. eexists. reflexivity.
Qed.

Lemma mark_records_one_entry_witness :
  let w := exec (telemetry_start analytics_and_performance) (exec module_load blank_page) in
  timeline (exec (telemetry_performance_mark [VNum 7]) w)
  = [{| entry_name := "7"; entryType := Mark; startTime := 0; duration := 0 |}] /\
  exists msg,
    telemetry_performance_mark [VStr "navigationStart"] w = (Throw (SyntaxError msg), w).
Proof.
  intros w. split.
  - destruct (proj1 (mark_records_one_entry (TrackingFunction (VStr "MozillaResearch"))
                       [VNum 7] w eq_refl eq_refl eq_refl) eq_refl) as [H _].
    unfold exec. rewrite H. reflexivity.
  - exact (proj2 (mark_records_one_entry (TrackingFunction (VStr "MozillaResearch"))
                    [VStr "navigationStart"] w eq_refl eq_refl eq_refl) eq_refl).
Defined.



Lemma find_mark_other (name other : string) (tl : list PerfEntry) (e : PerfEntry) :
  String.eqb (entry_name e) name = false ->
  find_mark name (tl ++ [e]) = find_mark name tl.
Proof.
  intros H. unfold find_mark. rewrite List.filter_app. simpl. rewrite H, andb_false_r.
  rewrite app_nil_r. reflexivity.
Qed.

(** The rounded difference of two whole time stamps is their difference. *)
Lemma Math_round_whole (x y : Q) :
  whole_ms x = true -> whole_ms y = true ->
  Math_round (y - x) = (Qnum y - Qnum x)%Z.
Proof.
  destruct x as [nx dx], y as [ny dy]. unfold whole_ms. cbn [Qden Qnum].
  intros Hx Hy.
  apply andb_prop in Hx as [Hx _]. apply andb_prop in Hx as [Hx _].
  apply andb_prop in Hy as [Hy _]. apply andb_prop in Hy as [Hy _].
  apply Pos.eqb_eq in Hx, Hy. subst dx dy.
  unfold Math_round, Qfloor, Qminus, Qplus, Qopp. simpl.
  symmetry. apply (Z.div_unique _ _ _ 1); lia.
Qed.

(** X8: two marks and a measure compose.  With tracking allowed, after
    [mark(a)], some time, and [mark(b)], under names that are not reserved
    and at time stamps that are whole milliseconds (which the host
    subtracts without rounding), a [measure(m, a, b)] under a name [m] not
    yet in the buffer records the interval between the two marks and hands
    the tracker one 'event' named [m] whose value is that interval. *)
Theorem measure_reports_interval_between_marks (t : Tracker) (a b m : string)
    (d : Z) (p : Q) (w : World) :
  tel_performance w = {| mark := PerfBound t; measure := PerfBound t |} ->
  dnt w = false ->
  reserved_name a = false -> reserved_name b = false ->
  whole_ms (perf_now w) = true -> whole_ms p = true ->
  String.eqb a b = false -> String.eqb a m = false -> String.eqb b m = false ->
  List.filter (fun e => String.eqb (entry_name e) m) (timeline w) = [] ->
  let w3 := run [PerfMark [VStr a]; Tick d p; PerfMark [VStr b]] w in
  let recorded := {| entry_name := m; entryType := Measure;
                     startTime := perf_now w; duration := p - perf_now w |} in
  telemetry_performance_measure [VStr m; VStr a; VStr b] w3
  = call_tracker t (VStr "event") (VStr m) (performance_event (p - perf_now w))
      (set_timeline (timeline w3 ++ [recorded]) w3) /\
  get_prop (performance_event (p - perf_now w)) "value"
  = VNum (Qnum p - Qnum (perf_now w)) /\
  get_prop (performance_event (p - perf_now w)) "event_category" = VStr "Performance".
Proof.
  intros Hp H Hra Hrb Hwn Hwp Hab Ham Hbm Hfresh. cbv zeta.
  split; [| split].
  2: { unfold performance_event. rewrite (Math_round_whole _ _ Hwn Hwp). reflexivity. }
  2: { reflexivity. }
  assert (Hw3 : run [PerfMark [VStr a]; Tick d p; PerfMark [VStr b]] w
    = set_timeline
        ((timeline w ++ [{| entry_name := a; entryType := Mark;
                            startTime := perf_now w; duration := 0 |}])
         ++ [{| entry_name := b; entryType := Mark; startTime := p; duration := 0 |}])
        (set_clocks d p w)).
  { unfold run. cbn [fold_left act]. unfold exec.
    rewrite (telemetry_performance_mark_allowed t [VStr a] w)
      by (rewrite ?Hp; auto).
    simpl snd.
    rewrite (telemetry_performance_mark_allowed t [VStr b])
      by (simpl; rewrite ?Hp; auto).
    reflexivity. }
  rewrite Hw3. set (w3 := set_timeline _ (set_clocks d p w)).
  assert (Hb : resolve_mark (VStr b) (perf_now w3) (timeline w3) = Normal p).
  { unfold resolve_mark, w3. cbn [to_string timeline set_timeline].
    rewrite find_mark_last. reflexivity. }
  assert (Ha : resolve_mark (VStr a) 0 (timeline w3) = Normal (perf_now w)).
  { unfold resolve_mark, w3. cbn [to_string timeline set_timeline].
    rewrite (find_mark_other a b) by (simpl; rewrite String.eqb_sym; exact Hab).
    rewrite find_mark_last. reflexivity. }
  assert (Hf : List.filter (fun e => String.eqb (entry_name e) (to_string (VStr m)))
                 (timeline w3) = []).
  { unfold w3. cbn [to_string timeline set_timeline].
    rewrite !List.filter_app, Hfresh. simpl. rewrite Ham, Hbm. reflexivity. }
  unfold telemetry_performance_measure. rewrite bind_gets.
  replace (measure (tel_performance w3)) with (PerfBound t)
    by (unfold w3; simpl; rewrite Hp; reflexivity).
  unfold arg. cbn [nth].
  exact (proj2 (bound_measure_fresh_name t (VStr m) (VStr a) (VStr b) w3
                  (perf_now w) p H Hf Ha Hb)).
Qed.

Lemma measure_reports_interval_between_marks_witness :
  let w := exec (telemetry_start analytics_and_performance) (exec module_load blank_page) in
  let w3 := run [PerfMark [VStr "a"]; Tick 1500000000012 12; PerfMark [VStr "b"]] w in
  gtag_calls (exec (telemetry_performance_measure [VStr "m"; VStr "a"; VStr "b"]) w3)
  = gtag_calls w3 ++
    [{| callee := WindowGtag GtagPush;
        call_args :=
          [VStr "event"; VStr "m";
           VObj (<["send_to" := VStr "MozillaResearch"]>
                   (<["event_category" := VStr "Performance"]>
                      {[ "value" := VNum 12 ]}))] |}].
Proof.
  intros w w3. unfold w3, exec.
  rewrite (proj1 (measure_reports_interval_between_marks
                    (TrackingFunction (VStr "MozillaResearch"))
                    "a" "b" "m" 1500000000012 12 w
                    eq_refl eq_refl eq_refl eq_refl eq_refl eq_refl
                    eq_refl eq_refl eq_refl eq_refl)).
  vm_compute. reflexivity.
Defined.

(** ** Script completions *)

(** X9: when raven.js has loaded and defined [Raven], the callback
    configures it with the fixed DSN and installs it, logging nothing.  The
    callback does not consult the gate: this holds on every page, also when
    Do-Not-Track was switched on after the script was injected. *)
Theorem raven_installed_on_load (w : World) (r : RavenObj) :
  win_Raven w = Some r ->
  on_load raven_script w
  = (Normal tt,
     set_Raven (Some {| raven_dsn := Some RAVEN_DSN; raven_installed := true |}) w).
Proof.
  intros H. unfold on_load, run_callback, raven_callback, startRaven, bind, gets, modify.
  simpl. rewrite H. simpl. rewrite H. reflexivity.
Qed.

Lemma raven_installed_on_load_witness :
  let w := exec (telemetry_start (VObj {[ "errorLogging" := VBool true ]}))
             (exec module_load blank_page) in
  let w' := run [Preference (VStr "1") VUndef VUndef; RavenDefined; ScriptLoaded 1] w in
  dnt w' = true /\
  win_Raven w' = Some {| raven_dsn := Some RAVEN_DSN; raven_installed := true |}.
Proof.
  intros w w'. split; [reflexivity |].
  pose proof (raven_installed_on_load
                (run [Preference (VStr "1") VUndef VUndef; RavenDefined] w)
                {| raven_dsn := None; raven_installed := false |} eq_refl) as H.
  unfold w', run. cbn [fold_left].
  change (act (ScriptLoaded 1) ?x) with (exec (on_load raven_script) x).
  unfold exec, run in *. cbn [fold_left] in H. rewrite H. reflexivity.
Defined.

(** X10: the completion of gtag.js, injected at module load, is only
    reported: a failed load logs one warning naming the event, a load that
    succeeds changes nothing; neither throws. *)
Theorem analytics_script_completion (w later : World) (ev : gmap string JSVal) :
  dnt w = false ->
  exists el,
    head (exec module_load w) = head w ++ [el] /\
    on_load el later = (Normal tt, later) /\
    on_error el ev later
    = (Normal tt,
       set_console (console later ++ [[VStr "Could not load Analytics.js script:"; VObj ev]])
         later).
Proof.
  intros H. eexists.
  unfold module_load, setupAnalytics, doNotTrack, exec.
  rewrite !bind_modify, bind_gets. autorewrite with dnt_frame. rewrite H.
  unfold call_fn. js_unfold.
  destruct (win_gtag w) as [[] |]; simpl; repeat split; reflexivity.
Qed.

Lemma analytics_script_completion_witness :
  let w := exec module_load blank_page in
  console (act (ScriptFailed 0 {[ "type" := VStr "error" ]}) w)
  = [[VStr "Could not load Analytics.js script:"; VObj {[ "type" := VStr "error" ]}]] /\
  act (ScriptLoaded 0) w = w.
Proof.
  intros w.
  destruct (analytics_script_completion blank_page w {[ "type" := VStr "error" ]} eq_refl)
    as (el & Hh & Hl & He).
  assert (Hel : head w !! 0%nat = Some el).
  { unfold w. rewrite Hh. reflexivity. }
  unfold act. rewrite Hel. unfold exec. rewrite Hl, He. split; reflexivity.
Defined.

(** ** [startAnalytics] and the tracker's options *)

(** X11: with tracking allowed on a page where [gtag] can run,
    [startAnalytics] makes exactly two calls on the analytics channel, in
    this order: the 'config' of the fixed tracking id with its groups and
    custom map, then the 'event' [using_webvr_template] carrying the version
    and [send_to: 'MozillaResearch']; it returns the tracker bound to that
    group.  Under Do-Not-Track it makes no call and returns [NO_OP]. *)
Theorem startAnalytics_config_then_event (w : World) :
  let config :=
    [VStr "config"; VStr "UA-77033033-6";
     VObj (<["groups" := VStr "MozillaResearch"]>
             {[ "custom_map" := VObj {[ "dimension1" := VStr "version" ]} ]})] in
  let event :=
    [VStr "event"; VStr "using_webvr_template";
     VObj (<["send_to" := VStr "MozillaResearch"]> {[ "version" := VStr "1.1.0" ]})] in
  (dnt w = true -> startAnalytics w = (Normal TrackerNoOp, w)) /\
  (dnt w = false -> gtag_ok w = true ->
   startAnalytics w
   = (Normal (TrackingFunction (VStr "MozillaResearch")), sent event (sent config w)) /\
   gtag_calls (sent event (sent config w))
   = gtag_calls w ++ [{| callee := channel w; call_args := config |};
                      {| callee := channel w; call_args := event |}]).
Proof.
  cbv zeta. split; [apply startAnalytics_disallowed |].
  intros H Hok.
  set (config := [VStr "config"; _; _]). set (event := [VStr "event"; _; _]).
  assert (H1 : dnt (sent config w) = false).
  { destruct (sent_frame config w) as (-> & _). exact H. }
  assert (Hch : channel (sent config w) = channel w).
  { unfold channel. destruct (sent_frame config w) as (_ & -> & _). reflexivity. }
  split.
  - unfold startAnalytics.
    rewrite (bind_normal _ _ w (sent config w)
               (TrackingFunction (VStr "MozillaResearch"))).
    + unfold call_tracker.
      rewrite (bind_normal _ _ (sent config w) (sent event (sent config w)) tt);
        [reflexivity |].
      rewrite trackingFunction_allowed by (exact H1 || reflexivity).
      apply (call_fn_channel event), sent_gtag_ok, Hok.
    + rewrite (configureBoundTracker_allowed _ _ _ H).
      change (call_fn (channel w) _ w) with (call_fn (channel w) config w).
      rewrite (call_fn_channel config w Hok). reflexivity.
  - rewrite !sent_recorded, Hch, <- app_assoc. reflexivity.
Qed.

Lemma startAnalytics_config_then_event_witness :
  let w := exec module_load blank_page in
  map callee (gtag_calls (exec startAnalytics w))
  = [WindowGtag GtagPush; WindowGtag GtagPush; WindowGtag GtagPush] /\
  startAnalytics dnt_page = (Normal TrackerNoOp, dnt_page).
Proof.
  intros w. split.
  - destruct (proj2 (startAnalytics_config_then_event w) eq_refl eq_refl) as [Hs Hc].
    unfold exec. rewrite Hs. simpl snd. rewrite Hc. reflexivity.
  - exact (proj1 (startAnalytics_config_then_event dnt_page) eq_refl).
Defined.

(** X12: the tracker extends objects only.  With tracking allowed and
    [groups] set, options that are a number, a string or [true] make the
    tracker throw a [TypeError] (the module is in strict mode) before
    anything is sent; without [groups] the same options are forwarded as
    they are. *)
Theorem tracker_rejects_primitive_options (groups command label options : JSVal)
    (w : World) :
  dnt w = false ->
  truthy options = true -> plain_options options = false ->
  (truthy groups = true ->
   exists msg, trackingFunction groups command label options w = (Throw (TypeError msg), w)) /\
  (truthy groups = false ->
   trackingFunction groups command label options w
   = call_fn (channel w) [command; label; options] w).
Proof.
  intros H Ht Hp. unfold trackingFunction, doNotTrack, telemetry_gtag.
  rewrite bind_gets, H. unfold plain_options in Hp. unfold or_empty in *. rewrite Ht in *.
  split; intros Hg; rewrite Hg.
  - destruct options; try discriminate; eexists; reflexivity.
  - reflexivity.
Qed.

Lemma tracker_rejects_primitive_options_witness :
  let w := exec module_load blank_page in
  (exists msg,
     trackingFunction (VStr "MozillaResearch") (VStr "event") (VStr "click") (VNum 5) w
     = (Throw (TypeError msg), w)) /\
  gtag_calls (exec (trackingFunction VUndef (VStr "event") (VStr "click") (VNum 5)) w)
  = gtag_calls w ++ [{| callee := WindowGtag GtagPush;
                        call_args := [VStr "event"; VStr "click"; VNum 5] |}].
Proof.
  intros w. split.
  - exact (proj1 (tracker_rejects_primitive_options (VStr "MozillaResearch") (VStr "event")
                    (VStr "click") (VNum 5) w eq_refl eq_refl eq_refl) eq_refl).
  - unfold exec.
    rewrite (proj2 (tracker_rejects_primitive_options VUndef (VStr "event")
                      (VStr "click") (VNum 5) w eq_refl eq_refl eq_refl) eq_refl).
    reflexivity.
Defined.

(** ** Scripts injected after load *)

Lemma exec_bind_keeps {A C B} (f : World -> B) (m : JS A) (k : A -> JS C) (w : World) :
  (forall a, keeps f (k a)) -> f (exec (bind m k) w) = f (exec m w).
Proof.
  intros Hk. unfold exec, bind. destruct (m w) as [[a | e] w']; [apply Hk | reflexivity].
Qed.

Lemma head_sent (args : list JSVal) (w : World) : head (sent args w) = head w.
Proof. apply (sent_frame args w). Qed.

(** The body of [start] injects the script of [setupErrorLogging] and no
    other. *)
Lemma start_body_head (config : JSVal) (w : World) :
  head (exec (start_body config) w)
  = if truthy (get_prop (or_empty config) "errorLogging") && negb (dnt w)
    then head w ++ [raven_script] else head w.
Proof.
  unfold start_body. rewrite exec_bind_keeps.
  - unfold exec. destruct (truthy (get_prop (or_empty config) "errorLogging"));
      [| reflexivity].
    rewrite setupErrorLogging_effect. destruct (dnt w); reflexivity.
  - intros u. apply keeps_bind; [| intros u'; apply keeps_ret].
    destruct (truthy (get_prop (or_empty config) "analytics")); [| apply keeps_ret].
    apply keeps_bind; [apply frame_startAnalytics; (reflexivity || apply head_sent) |].
    intros t. destruct (truthy _); [| apply keeps_ret].
    apply keeps_modify. reflexivity.
Qed.

Lemma act_keeps_head (a : Action) (w : World) :
  (forall config, a <> Start config) \/ called w = true ->
  head (act a w) = head w.
Proof.
  intros H. destruct a; simpl; try reflexivity.
  - destruct H as [H | H]; [exfalso; exact (H config eq_refl) |].
    unfold exec. rewrite (telemetry_start_consumed _ _ H). reflexivity.
  - apply (frame_mark head). reflexivity.
  - apply (frame_measure head); (reflexivity || apply head_sent).
  - destruct (head w !! i); [| reflexivity]. apply (frame_on_load head); reflexivity.
  - destruct (head w !! i); [| reflexivity]. apply (frame_on_error head); reflexivity.
Qed.

Lemma run_keeps_head_once_started (acts : list Action) (w : World) :
  called w = true -> head (run acts w) = head w.
Proof.
  revert w. induction acts as [| a acts IH]; intros w H; [reflexivity |].
  simpl. rewrite IH.
  - apply act_keeps_head. right. exact H.
  - destruct (guard_eq _ _ (act_keeps_guard a w (or_intror H))) as [-> _]. exact H.
Qed.

(** X13: on a page where [gtag] can run, whatever is done after the module
    has loaded and however often [start] is called, the module injects at
    most one more script, the raven.js element of [setupErrorLogging]. *)
Theorem at_most_one_raven_script (acts : list Action) (w : World) :
  gtag_ok w = true -> called w = false ->
  head (run acts w) = head w \/ head (run acts w) = head w ++ [raven_script].
Proof.
  revert w. induction acts as [| a acts IH]; intros w Hok Hc; [left; reflexivity |].
  simpl.
  assert (Hother : (forall config, a <> Start config) ->
            head (run acts (act a w)) = head w \/
            head (run acts (act a w)) = head w ++ [raven_script]).
  { intros Ha.
    destruct (guard_eq _ _ (act_keeps_guard a w (or_introl Ha))) as [Hc' Hok'].
    rewrite <- (act_keeps_head a w (or_introl Ha)).
    apply IH; [rewrite Hok'; exact Hok | rewrite Hc'; exact Hc]. }
  destruct a; try (apply Hother; discriminate).
  assert (Hs : act (Start config) w = set_called true (exec (start_body config) w)).
  { simpl. unfold exec at 1. rewrite (telemetry_start_first _ _ Hok Hc). reflexivity. }
  rewrite Hs, run_keeps_head_once_started by reflexivity.
  change (head (set_called true ?x)) with (head x). rewrite start_body_head.
  destruct (_ && _); [right | left]; reflexivity.
Qed.

Lemma at_most_one_raven_script_witness :
  let everything :=
    VObj (<["errorLogging" := VBool true]>
            (<["analytics" := VBool true]> {[ "performance" := VBool true ]})) in
  let w := exec module_load blank_page in
  length (head (run [Start everything; Start everything; ScriptLoaded 1; Start everything] w))
  = 2%nat.
Proof.
  intros everything w.
  destruct (at_most_one_raven_script
              [Start everything; Start everything; ScriptLoaded 1; Start everything] w
              eq_refl eq_refl) as [H | H]; rewrite H; [| reflexivity].
  exfalso.
  assert (Hl : length (head (run [Start everything; Start everything; ScriptLoaded 1;
                                  Start everything] w)) = 2%nat)
    by (vm_compute; reflexivity).
  rewrite H in Hl. discriminate Hl.
Defined.

(** Where [start] throws, the guard is not consumed and each retry injects
    raven.js again. *)
Example retried_start_injects_again :
  let config := VObj (<["errorLogging" := VBool true]> {[ "analytics" := VBool true ]}) in
  map src (head (run [Start config; Start config] page_without_dataLayer))
  = [RAVEN_URL; RAVEN_URL].
Proof. vm_compute. reflexivity. Qed.

(** ** Error reporting is opt-in *)

Lemma forallb_lookup {A} (p : A -> bool) (l : list A) (i : nat) (x : A) :
  forallb p l = true -> l !! i = Some x -> p x = true.
Proof.
  revert i. induction l as [| y l IH]; intros i H Hi; [discriminate Hi |].
  simpl in H. apply andb_prop in H as [Hy Hl].
  destruct i as [| i]; simpl in Hi.
  - injection Hi as <-. exact Hy.
  - exact (IH i Hl Hi).
Qed.

Lemma Raven_sent (args : list JSVal) (w : World) : win_Raven (sent args w) = win_Raven w.
Proof. apply (sent_frame args w). Qed.

Lemma completion_keeps_Raven (el : ScriptEl) (ev : gmap string JSVal) (w : World) :
  no_raven_listener el = true ->
  win_Raven (exec (on_load el) w) = win_Raven w /\
  win_Raven (exec (on_error el ev) w) = win_Raven w.
Proof.
  unfold no_raven_listener, on_load, on_error.
  destruct (listener el) as [[] |]; [| discriminate |]; intros _; split; reflexivity.
Qed.

Lemma act_keeps_Raven (a : Action) (w : World) :
  called w = true -> forallb no_raven_listener (head w) = true ->
  not_RavenDefined a = true ->
  win_Raven (act a w) = win_Raven w.
Proof.
  intros Hc Hh Ha. destruct a; simpl; try reflexivity; try discriminate Ha.
  - unfold exec. rewrite (telemetry_start_consumed _ _ Hc). reflexivity.
  - apply (frame_mark win_Raven). reflexivity.
  - apply (frame_measure win_Raven); (reflexivity || apply Raven_sent).
  - destruct (head w !! i) as [el |] eqn:Hel; [| reflexivity].
    apply (completion_keeps_Raven el ∅ w), (forallb_lookup _ _ _ _ Hh Hel).
  - destruct (head w !! i) as [el |] eqn:Hel; [| reflexivity].
    apply (completion_keeps_Raven el ev w), (forallb_lookup _ _ _ _ Hh Hel).
Qed.

Lemma run_keeps_Raven (acts : list Action) (w : World) :
  called w = true -> forallb no_raven_listener (head w) = true ->
  forallb not_RavenDefined acts = true ->
  win_Raven (run acts w) = win_Raven w.
Proof.
  revert w. induction acts as [| a acts IH]; intros w Hc Hh Hacts; [reflexivity |].
  simpl in Hacts. apply andb_prop in Hacts as [Ha Hacts]. simpl.
  rewrite IH.
  - apply act_keeps_Raven; assumption.
  - destruct (guard_eq _ _ (act_keeps_guard a w (or_intror Hc))) as [-> _]. exact Hc.
  - rewrite (act_keeps_head a w (or_intror Hc)). exact Hh.
  - exact Hacts.
Qed.

(** X14: on a page where [gtag] can run, error reporting is opt-in for
    good.  When the first [start] does not ask for [errorLogging] (and no
    raven.js element of the module is in the page), a [Raven] global of the
    page is never configured or installed by the module, whatever is called
    and whichever script completes later. *)
Theorem raven_needs_errorLogging (config : JSVal) (acts : list Action) (w : World) :
  gtag_ok w = true -> called w = false ->
  forallb no_raven_listener (head w) = true ->
  truthy (get_prop (or_empty config) "errorLogging") = false ->
  forallb not_RavenDefined acts = true ->
  win_Raven (run acts (exec (telemetry_start config) w)) = win_Raven w.
Proof.
  intros Hok Hc Hh He Hacts.
  assert (Hs : exec (telemetry_start config) w
               = set_called true (exec (start_body config) w)).
  { unfold exec at 1. rewrite (telemetry_start_first _ _ Hok Hc). reflexivity. }
  rewrite Hs, run_keeps_Raven; try assumption; try reflexivity.
  - change (win_Raven (set_called true ?x)) with (win_Raven x).
    apply (frame_start_body win_Raven); (reflexivity || apply Raven_sent).
  - change (head (set_called true ?x)) with (head x).
    rewrite start_body_head, He. exact Hh.
Qed.

Lemma raven_needs_errorLogging_witness :
  let page := set_Raven (Some {| raven_dsn := None; raven_installed := false |}) blank_page in
  win_Raven (run [ScriptLoaded 0; ScriptFailed 0 ∅; Start (VObj {[ "errorLogging" := VBool true ]});
                  ScriptLoaded 1]
               (exec (telemetry_start analytics_and_performance) (exec module_load page)))
  = Some {| raven_dsn := None; raven_installed := false |}.
Proof.
  intros page.
  exact (raven_needs_errorLogging analytics_and_performance
           [ScriptLoaded 0; ScriptFailed 0 ∅; Start (VObj {[ "errorLogging" := VBool true ]});
            ScriptLoaded 1]
           (exec module_load page) eq_refl eq_refl eq_refl eq_refl eq_refl).
Defined.

(** Where the first [start] throws, the guard is still unset and a later
    [start] can switch error reporting on. *)
Example raven_configured_after_thrown_start :
  let page := act RavenDefined page_after_dataLayer_removed in
  win_Raven (run [ Start (VObj {[ "analytics" := VBool true ]});
                   Start (VObj {[ "errorLogging" := VBool true ]});
                   ScriptLoaded 1 ] page)
  = Some {| raven_dsn := Some RAVEN_DSN; raven_installed := true |}.
Proof. vm_compute. reflexivity. Qed.
